(** * NTree.py: the N-dimensional BSP tree of gcode_to_voxel

    A shallow embedding of [src/gcode_to_voxel/NTree.py] (classes [Ntree] and
    [Node]) and the properties of its get / set / delete / merge contract.

    Conventions of the embedding.
    - Python objects are records; a method is a computation in a state and
      exception monad over the record of [self], so that what an exception
      leaves behind in the object stays visible.
    - An attribute that the class never defines is an [AttributeError] at the
      place where the source reads it; an undefined global name is a
      [NameError].
    - Numbers are exact rationals ([Q]) standing for the binary64 floats of
      numpy. What depends on the format is modelled where it raises: the
      special values inf and nan of a division by zero and of log2, and the
      OverflowError of [2. ** max_depth]. Rounding, underflow to a signed
      zero and overflow of a finite quotient to inf are not: a property
      that needs them to be exact is not stated here.
    - The file is Python 2 (see its first line): an integer compared with
      [None] is greater than it. *)

From Stdlib Require Import ZArith QArith List String Bool Lia.
Import ListNotations.

Local Open Scope Z_scope.

(** ** Python exceptions and the method monad *)

Module Py.

Inductive exn : Type :=
| TypeError
| AttributeError
| NameError
| AssertionError
| IndexError
| ValueError
| OverflowError
| UserError (name : string).
(* [UserError] stands for an exception class a program defines itself. *)

Inductive result (A : Type) : Type :=
| Ok (a : A)
| Raise (e : exn).
Arguments Ok {A} a.
Arguments Raise {A} e.

(** A method on an object of type [S]: the object after the call, and the
    value returned or the exception raised. *)
Definition M (S A : Type) : Type := S -> S * result A.

Definition ret {S A} (a : A) : M S A := fun s => (s, Ok a).

Definition raise {S A} (e : exn) : M S A := fun s => (s, Raise e).

Definition bind {S A B} (m : M S A) (k : A -> M S B) : M S B :=
  fun s =>
    match m s with
    | (s', Ok a) => k a s'
    | (s', Raise e) => (s', Raise e)
    end.

Definition gets {S A} (f : S -> A) : M S A := fun s => (s, Ok (f s)).

Definition modify {S} (f : S -> S) : M S unit := fun s => (f s, Ok tt).

Definition lift {S A} (r : result A) : M S A := fun s => (s, r).

(** Run a method of a field object (the field is read, the method runs on
    it, and the field holds the object the method leaves). *)
Definition zoom {S T A} (rd : S -> T) (wr : S -> T -> S) (m : M T A)
  : M S A :=
  fun s => let '(t', r) := m (rd s) in (wr s t', r).

(** The value a computation would bind where the source reads a name that
    does not exist: there is none. *)
Definition no_value : Type := Empty_set.

Definition absurd {A} (v : no_value) : A := match v with end.

(** [op(f(x) for x in xs)] for a function that may raise. *)
Fixpoint mapR {A B} (f : A -> result B) (xs : list A) : result (list B) :=
  match xs with
  | [] => Ok []
  | x :: xs' =>
      match f x with
      | Raise e => Raise e
      | Ok y =>
          match mapR f xs' with
          | Raise e => Raise e
          | Ok ys => Ok (y :: ys)
          end
      end
  end.

(** [int <= x] in CPython 2 where [x] is an integer or [None]: [None] is
    smaller than every number. *)
Definition le_int_or_None (a : Z) (b : option Z) : bool :=
  match b with
  | Some b' => a <=? b'
  | None => false
  end.

End Py.

Import Py.

Declare Scope py_scope.
Delimit Scope py_scope with py.
Notation "x <- m ;; k" := (bind m (fun x => k))
  (at level 61, m at next level, right associativity) : py_scope.
Notation "m ;;; k" := (bind m (fun _ => k))
  (at level 61, right associativity) : py_scope.

(** ** Values *)

(** A number, or a list of numbers (the only kind with a [__len__]): what the
    constructor takes for [attrs] and for [resolution]. *)
Inductive pyval : Type :=
| Num (q : Q)
| NumList (l : list Q).

(** [hasattr(a, '__len__')] *)
Definition has_len (a : pyval) : bool :=
  match a with
  | Num _ => false
  | NumList _ => true
  end.

(** [len(a)] *)
Definition py_len (a : pyval) : result Z :=
  match a with
  | Num _ => Raise TypeError
  | NumList l => Ok (Z.of_nat (List.length l))
  end.

Fixpoint list_eqb (l1 l2 : list Q) : bool :=
  match l1, l2 with
  | [], [] => true
  | x :: l1', y :: l2' => Qeq_bool x y && list_eqb l1' l2'
  | _, _ => false
  end.

(** [a == b] *)
Definition py_eqb (a b : pyval) : bool :=
  match a, b with
  | Num x, Num y => Qeq_bool x y
  | NumList l1, NumList l2 => list_eqb l1 l2
  | _, _ => false
  end.

(** A float ndarray of shape (d, 2): one [start, end] row per axis. *)
Definition ndarray : Type := list (Q * Q).

(** The array [np.tile(cell, reps)]: every cell of it is [cell]. *)
Record DenseArray : Type := mkDense {
  cell : pyval;
  reps : list Z
}.

(** Every element of the array equals [a]. *)
Definition filled_with (a : pyval) (d : DenseArray) : bool :=
  py_eqb (cell d) a.

(** [np.tile(a, out_shape)] for the [out_shape] a leaf builds. Its entries
    come from [s.stop], [s.start] and [s.step] of ndarray rows, which have no
    such attributes: only the empty [out_shape] exists. *)
Definition np_tile (a : pyval) (out_shape : list no_value) : DenseArray :=
  match out_shape with
  | [] => mkDense a []
  | v :: _ => absurd v
  end.

(** ** numpy arithmetic used by the constructor *)

Module Np.

(** A binary64 value: a finite number, or one of the special values. *)
Inductive xfloat : Type :=
| Fin (q : Q)
| PInf
| NInf
| NaN.

(** [a / b] on arrays: division by zero gives inf or nan (and a warning),
    it does not raise. The quotient of finite numbers is kept exact: binary64
    rounds it, may underflow it to a zero (of either sign) and may overflow
    it to inf; and [Q] has one zero where binary64 has two. *)
Definition div (a b : Q) : xfloat :=
  if Qeq_bool b 0 then
    if Qeq_bool a 0 then NaN
    else if Qle_bool 0 a then PInf else NInf
  else Fin (a / b).

(** [np.diff(ranges, axis=-1).flatten()] *)
Definition diff (ranges : ndarray) : list Q :=
  map (fun r => (snd r - fst r)%Q) ranges.

(** [xs / ys] with numpy's broadcasting of one-dimensional operands. *)
Definition div_broadcast (xs ys : list Q) : result (list xfloat) :=
  if Nat.eqb (List.length xs) (List.length ys) then
    Ok (map (fun p => div (fst p) (snd p)) (combine xs ys))
  else
    match xs, ys with
    | _, [y] => Ok (map (fun x => div x y) xs)
    | [x], _ => Ok (map (fun y => div x y) ys)
    | _, _ => Raise ValueError
    end.

(** A value of [np.log2]: the logarithm of a positive number, kept as
    that number, or a special value. *)
Inductive logv : Type :=
| Log2 (q : Q)
| LPInf
| LNInf
| LNaN.

Definition log2 (x : xfloat) : logv :=
  match x with
  | Fin q =>
      if Qeq_bool q 0 then LNInf
      else if Qle_bool 0 q then Log2 q else LNaN
  | PInf => LPInf
  | NInf => LNaN
  | NaN => LNaN
  end.

Definition max2 (a b : logv) : logv :=
  match a, b with
  | LNaN, _ | _, LNaN => LNaN
  | LPInf, _ | _, LPInf => LPInf
  | LNInf, c | c, LNInf => c
  | Log2 p, Log2 q => if Qle_bool p q then Log2 q else Log2 p
  end.

(** [np.max(xs)]: nan if any entry is; an empty array has no maximum. *)
Definition max (xs : list logv) : result logv :=
  match xs with
  | [] => Raise ValueError
  | x :: xs' => Ok (fold_left max2 xs' x)
  end.

(** The least [k] with [q <= 2^k], for [q > 0]: the ceiling of log2, taken
    exactly. [np.ceil(np.log2(x))] in binary64 agrees with it except where
    log2 rounds down to an integer (just above a power of two, where it
    gives one less). *)
Definition clog2 (q : Q) : Z :=
  let n := Qnum q in
  let d := Z.pos (Qden q) in
  if d <=? n then Z.log2_up ((n + d - 1) / d)
  else - Z.log2 (d / n).

(** [2. ** n] for an integer [n]: a Python float power, which raises
    OverflowError from 2^1024 on. (Below 2^-1074 binary64 gives 0.0; the
    exact power is kept.) *)
Definition pow2 (n : Z) : result Q :=
  if 1024 <=? n then Raise OverflowError else Ok (Qpower 2 n).

(** [int(np.ceil(v))] *)
Definition int_ceil (v : logv) : result Z :=
  match v with
  | Log2 q => Ok (clog2 q)
  | LPInf | LNInf => Raise OverflowError
  | LNaN => Raise ValueError
  end.

End Np.

Local Open Scope py_scope.

(** ** class Node *)

#[local] Set Warnings "-register-all".

Module Node.

(** The attributes [__init__] sets. [centers] ([ranges.mean(-1)]) is left
    out: no method reads it. [nodes] is [None] for a leaf, and the
    flattened array of children otherwise. *)
Inductive t : Type := mk {
  dims : Z;
  ranges : ndarray;
  attrs : pyval;
  level : Z;
  max_level : Z;
  nodes : option (list t)
}.

Definition set_attrs (v : pyval) (self : t) : t :=
  mk (dims self) (ranges self) v (level self) (max_level self) (nodes self).

Definition set_nodes (ns : option (list t)) (self : t) : t :=
  mk (dims self) (ranges self) (attrs self) (level self) (max_level self) ns.

(** [len(ranges.shape)]: [np.array([])] has shape (0,), an array of rows
    has shape (d, 2). *)
Definition shape_len (ranges : ndarray) : Z :=
  match ranges with
  | [] => 1
  | _ :: _ => 2
  end.

(** [Node(ranges, attrs, level, max_level)] *)
Definition __init__ (ranges : ndarray) (attrs : pyval) (level : Z)
    (max_level : Z) : t :=
  mk (shape_len ranges) ranges attrs level max_level None.

(** [self.name] for a name that neither [Node] nor its instances define. *)
Definition missing_attribute {A} (name : string) : M t A :=
  raise AttributeError.

(** [[(s.stop - s.start) / s.step]] for a row [s] of the coords array:
    the row is an ndarray, [s.stop] is not an attribute of it. *)
Definition out_shape_entry (s : Q * Q) : result no_value :=
  Raise AttributeError.

(** [Node.__getitem__] *)
Definition __getitem__ (coords : ndarray) : M t DenseArray :=
  ns <- gets nodes ;;
  match ns with
  | Some _ =>
      (* return self._read_nodes(coords) *)
      missing_attribute "_read_nodes"
  | None =>
      out_shape <- lift (mapR out_shape_entry coords) ;;
      a <- gets attrs ;;
      ret (np_tile a out_shape)
  end.

(** [all(n._merge() for n in children)], with [merge] for [_merge]: the
    generator is consumed up to the first child whose [_merge()] is false
    (or raises); every child visited is left as its own [_merge] left it,
    the others are not touched. *)
Definition all_merged (merge : t -> t * result bool)
  : list t -> list t * result bool :=
  fix go (l : list t) : list t * result bool :=
    match l with
    | [] => ([], Ok true)
    | n :: l' =>
        match merge n with
        | (n', Ok true) => let '(l'', b) := go l' in (n' :: l'', b)
        | (n', b) => (n' :: l', b)
        end
    end.

(** [Node._merge] *)
Fixpoint _merge (self : t) : t * result bool :=
  match self with
  | mk _ _ _ _ _ None =>
      (* no children: already merged *)
      (self, Ok true)
  | mk d r a lv ml (Some children) =>
      (* try to merge grandchildren *)
      let '(children', merged) := all_merged _merge children in
      let self' := mk d r a lv ml (Some children') in
      match merged with
      | Raise e => (self', Raise e)
      | Ok false => (self', Ok false)
      | Ok true =>
          (* compare all nodes to the first one *)
          match children' with
          | [] => (self', Raise IndexError)
          | first :: _ =>
              let cmp_val := attrs first in
              if forallb (fun n => py_eqb cmp_val (attrs n)) children'
              then (mk d r cmp_val lv ml None, Ok true)
              else (self', Ok false)
          end
      end
  end.

(** [Node._divide_ranges]: the body returns the global name
    [divided_ranges], which nothing defines. *)
Definition _divide_ranges (ranges : ndarray) : M t no_value :=
  raise NameError.

(** [Node._split]. The first statement raises; the rest of the body
    (allocating [self.nodes] and filling it with [Node(attrs=self.attrs,
    level=self.level + 1, max_level=self.max_level)]) needs its value. *)
Definition _split : M t unit :=
  rs <- gets ranges ;;
  nodes_ranges <- _divide_ranges rs ;;
  absurd nodes_ranges.

(** [Node._get_nodes]: [self.divided_ranges] is not an attribute (the
    method is named [_divide_ranges]); the loop over the children needs its
    value. *)
Definition _get_nodes (coords : ndarray) : M t DenseArray :=
  coords' <- missing_attribute (A := no_value) "divided_ranges" ;;
  absurd coords'.

(** [Node._set_nodes]: as [_get_nodes]; the loop
    [status &= self.nodes[idx].__setitem__(s, value)] needs the value of
    [self.divided_ranges(coords)]. *)
Definition _set_nodes (coords : ndarray) (value : pyval) : M t bool :=
  let status := true in
  coords' <- missing_attribute (A := no_value) "divided_ranges" ;;
  absurd coords'.

(** The body of [Node.__setitem__], with the call
    [self._contained_by(coords)] standing as [contained_by coords]. *)
Definition setitem_body (contained_by : ndarray -> M t bool)
    (coords : ndarray) (value : pyval) : M t bool :=
  lv <- gets level ;;
  ml <- gets max_level ;;
  split_branch <-
    (if lv <=? ml then
       (* and not self._contained_by(coords) *)
       contained <- contained_by coords ;;
       ret (negb contained)
     else ret false) ;;
  if (split_branch : bool) then
    ns <- gets nodes ;;
    (match ns with
     | None => _split
     | Some _ => ret tt
     end) ;;;
    _set_nodes coords value ;;;
    _merge ;;;
    ret true
  else
    modify (set_attrs value) ;;;
    ret true.

(** [Node.__setitem__]: [Node] has no attribute [_contained_by]. *)
Definition __setitem__ (coords : ndarray) (value : pyval) : M t bool :=
  setitem_body (fun _ => missing_attribute "_contained_by") coords value.

End Node.

(** ** class Ntree *)

Module Ntree.

Record t : Type := mk {
  dims : option Z;
  ranges : ndarray;
  resolution : list Q;
  max_depth : Z;
  dflt_attrs : pyval;
  n_attrs : Z;
  root : Node.t
}.

Definition set_root (self : t) (r : Node.t) : t :=
  mk (dims self) (ranges self) (resolution self) (max_depth self)
     (dflt_attrs self) (n_attrs self) r.

(** [value if hasattr(value, '__len__') else [value] * n] *)
Definition as_list (value : pyval) (n : Z) : list Q :=
  match value with
  | NumList l => l
  | Num q => repeat q (Z.to_nat n)
  end.

(** [[[0, resolution[i] * 2.**max_depth] for i in range(n)]] *)
Definition default_ranges (resolution : list Q) (max_depth : Z) (n : Z)
  : result ndarray :=
  mapR (fun i =>
          match nth_error resolution i with
          | Some r =>
              match Np.pow2 max_depth with
              | Ok p => Ok (0%Q, (r * p)%Q)
              | Raise e => Raise e
              end
          | None => Raise IndexError
          end)
       (seq 0 (Z.to_nat n)).

(** Lines 80 to 108 of [Ntree.__init__]: the values of [self.dims],
    [self.ranges], [self.resolution] and [self.max_depth]. *)
Definition configure (ranges : option ndarray) (resolution : option pyval)
    (n_dimensions : option Z) (max_depth : Z)
  : result (option Z * ndarray * list Q * Z) :=
  (* self.dims = len(ranges) if n_dimensions is not None else n_dimensions *)
  match
    match n_dimensions, ranges with
    | Some _, Some rs => Ok (Some (Z.of_nat (List.length rs)))
    | Some _, None => Raise TypeError
    | None, _ => Ok None
    end
  with
  | Raise e => Raise e
  | Ok dims =>
      match ranges with
      | Some rs =>
          match resolution with
          | Some res =>
              (* ranges and resolution: calculate the max depth *)
              let res := as_list res (Z.of_nat (List.length rs)) in
              match Np.div_broadcast (Np.diff rs) res with
              | Raise e => Raise e
              | Ok steps =>
                  match Np.max (map Np.log2 steps) with
                  | Raise e => Raise e
                  | Ok m =>
                      match Np.int_ceil m with
                      | Raise e => Raise e
                      | Ok max_depth' => Ok (dims, rs, res, max_depth')
                      end
                  end
              end
          | None =>
              (* ranges and no resolution: calculate it *)
              match Np.pow2 max_depth with
              | Raise e => Raise e
              | Ok p =>
                  let res := map (fun s => (s / p)%Q) (Np.diff rs) in
                  Ok (dims, rs, res, max_depth)
              end
          end
      | None =>
          (* no ranges: the resolution is 1 unless given *)
          let res :=
            match resolution with
            | Some res => res
            | None => Num 1
            end in
          match dims with
          | None =>
              (* [resolution] * None, or range(None) *)
              Raise TypeError
          | Some n =>
              let res := as_list res n in
              match default_ranges res max_depth n with
              | Raise e => Raise e
              | Ok rs => Ok (dims, rs, res, max_depth)
              end
          end
      end
  end.

(** [Ntree._assert_construction]: [pass]. *)
Definition _assert_construction (self_dims : option Z) : result unit :=
  Ok tt.

(** [Ntree(ranges, resolution, attrs, n_dimensions, max_depth)]; the
    defaults of the source are [None], [None], [0], [None] and [8]. *)
Definition __init__ (ranges : option ndarray) (resolution : option pyval)
    (attrs : pyval) (n_dimensions : option Z) (max_depth : Z) : result t :=
  match configure ranges resolution n_dimensions max_depth with
  | Raise e => Raise e
  | Ok (dims, rs, res, max_depth') =>
      (* self.dflt_attrs = attrs if hasattr(attrs, '__len__') else [attrs] *)
      let dflt_attrs :=
        match attrs with
        | NumList _ => attrs
        | Num q => NumList [q]
        end in
      (* self.n_attrs = len(attrs) *)
      match py_len attrs with
      | Raise e => Raise e
      | Ok n_attrs =>
          match _assert_construction dims with
          | Raise e => Raise e
          | Ok _ =>
              Ok (mk dims rs res max_depth' dflt_attrs n_attrs
                     (Node.__init__ rs attrs 0 max_depth'))
          end
      end
  end.

(** *** Subscripts *)

Record slice : Type := mkSlice {
  start : option Q;
  stop : option Q;
  step : option Q
}.

(** One coordinate of a subscript: a number or a slice. *)
Inductive coord : Type :=
| At (c : Q)
| Span (s : slice).

(** The subscript itself: one coordinate, or a sequence of them. *)
Inductive coords : Type :=
| One (el : coord)
| Many (els : list coord).

(** [self.name] for a name that neither [Ntree] nor its instances define. *)
Definition missing_attribute {A} (name : string) : M t A :=
  raise AttributeError.

(** [self.ranges[i]] *)
Definition ranges_row (i : nat) : M t (Q * Q) :=
  rs <- gets ranges ;;
  match nth_error rs i with
  | Some r => ret r
  | None => raise IndexError
  end.

(** [ranges[i] = [start, end]] on the local copy. *)
Fixpoint assign_row (rs : ndarray) (i : nat) (row : Q * Q)
  : result ndarray :=
  match rs, i with
  | [], _ => Raise IndexError
  | _ :: rs', O => Ok (row :: rs')
  | r :: rs', S i' =>
      match assign_row rs' i' row with
      | Ok rs'' => Ok (r :: rs'')
      | Raise e => Raise e
      end
  end.

(** The [[start, end]] of a slice at index [i]: a side that is [None] is
    read from [self.ranges[i]]. *)
Definition slice_row (i : nat) (s : slice) : M t (Q * Q) :=
  start' <-
    match start s with
    | Some x => ret x
    | None => r <- ranges_row i ;; ret (fst r)
    end ;;
  end' <-
    match stop s with
    | Some x => ret x
    | None => r <- ranges_row i ;; ret (snd r)
    end ;;
  ret (start', end').

(** The [[start, end]] of a number [c] at index [i]:
    [start = float(el)],
    [end = start + float(np.diff(self.ranges[i])) /
           (2 ** (self.max_level - self.level))].
    [max_level] and [level] are attributes of [Node], not of [Ntree]. *)
Definition scalar_row (i : nat) (c : Q) : M t (Q * Q) :=
  let start' := c in
  r <- ranges_row i ;;
  let span := (snd r - fst r)%Q in
  max_level <- missing_attribute (A := no_value) "max_level" ;;
  absurd max_level.

(** The body of [for i, el in enumerate(coords)] in [_parse_coords], from
    index [i] on, with [rs] the local copy of [self.ranges]. *)
Fixpoint parse_loop (i : nat) (els : list coord) (rs : ndarray)
  : M t ndarray :=
  match els with
  | [] => ret rs
  | el :: els' =>
      row <-
        match el with
        | Span s => slice_row i s
        | At c => scalar_row i c
        end ;;
      rs' <- lift (assign_row rs i row) ;;
      parse_loop (S i) els' rs'
  end.

(** [Ntree._parse_coords] ([print(ranges)] writes to the standard output
    and is left out). *)
Definition _parse_coords (c : coords) : M t ndarray :=
  let els :=
    match c with
    | One el => [el]
    | Many els => els
    end in
  d <- gets dims ;;
  if negb (le_int_or_None (Z.of_nat (List.length els)) d)
  then raise AssertionError
  else
    rs <- gets ranges ;;
    parse_loop 0 els rs.

(** [Ntree.__getitem__] *)
Definition __getitem__ (c : coords) : M t DenseArray :=
  c' <- _parse_coords c ;;
  zoom root set_root (Node.__getitem__ c').

(** [Ntree.__setitem__]: the def takes [coords] only. *)
Definition __setitem__ (c : coords) : M t DenseArray :=
  c' <- _parse_coords c ;;
  zoom root set_root (Node.__getitem__ c').

(** [Ntree.__delitem__] *)
Definition __delitem__ (c : coords) : M t DenseArray :=
  c' <- _parse_coords c ;;
  zoom root set_root (Node.__getitem__ c').

(** The statement [t[c] = value]: the interpreter calls
    [__setitem__(t, c, value)], one positional argument more than the def
    accepts, and the call raises before the body runs. *)
Definition assign_subscript (c : coords) (value : pyval) : M t unit :=
  raise TypeError.

(** The statement [del t[c]]: [__delitem__(t, c)], its value dropped. *)
Definition del_subscript (c : coords) : M t unit :=
  __delitem__ c ;;; ret tt.

End Ntree.

(** ** The vocabulary of the properties *)

Definition is_leaf (n : Node.t) : bool :=
  match Node.nodes n with
  | None => true
  | Some _ => false
  end.

(** All the children are leaves, with pairwise equal attributes. *)
Definition uniform_leaves (children : list Node.t) : bool :=
  forallb is_leaf children &&
  forallb (fun a =>
             forallb (fun b => py_eqb (Node.attrs a) (Node.attrs b)) children)
          children.

(** No internal node of the subtree has uniform leaves for children. *)
Fixpoint minimal (n : Node.t) : bool :=
  match n with
  | Node.mk _ _ _ _ _ None => true
  | Node.mk _ _ _ _ _ (Some children) =>
      negb (uniform_leaves children) &&
      (fix all (l : list Node.t) : bool :=
         match l with
         | [] => true
         | c :: l' => minimal c && all l'
         end) children
  end.

(** What a caller can do to a tree to write it: the two subscript
    statements, the direct calls of the two wrappers, and the write and the
    merge of the root node that the wrappers stand in front of. *)
Inductive operation : Type :=
| Assign (c : Ntree.coords) (value : pyval)
| Del (c : Ntree.coords)
| CallSetitem (c : Ntree.coords)
| CallDelitem (c : Ntree.coords)
| RootSetitem (c : ndarray) (value : pyval)
| RootMerge.

(** The tree an operation leaves, whether it returns or raises. *)
Definition after (o : operation) (self : Ntree.t) : Ntree.t :=
  match o with
  | Assign c value => fst (Ntree.assign_subscript c value self)
  | Del c => fst (Ntree.del_subscript c self)
  | CallSetitem c => fst (Ntree.__setitem__ c self)
  | CallDelitem c => fst (Ntree.__delitem__ c self)
  | RootSetitem c value =>
      fst (zoom Ntree.root Ntree.set_root (Node.__setitem__ c value) self)
  | RootMerge => fst (zoom Ntree.root Ntree.set_root Node._merge self)
  end.

Definition after_all (ops : list operation) (self : Ntree.t) : Ntree.t :=
  fold_left (fun s o => after o s) ops self.

(** [slice(a, b)] *)
Definition span (a b : Q) : Ntree.coord :=
  Ntree.Span (Ntree.mkSlice (Some a) (Some b) None).

(** [Ntree([[0, 4]], attrs=[0], n_dimensions=1, max_depth=2)] *)
Definition tree_1d : Ntree.t :=
  let rs := [(0, 4)]%Q in
  Ntree.mk (Some 1) rs [4 # 4]%Q 2 (NumList [0%Q]) 1
    (Node.__init__ rs (NumList [0%Q]) 0 2).

(** [Ntree([[0, 4], [0, 4]], attrs=[0], n_dimensions=2, max_depth=2)] *)
Definition tree_2d : Ntree.t :=
  let rs := [(0, 4); (0, 4)]%Q in
  Ntree.mk (Some 2) rs [4 # 4; 4 # 4]%Q 2 (NumList [0%Q]) 1
    (Node.__init__ rs (NumList [0%Q]) 0 2).

(** [Ntree([], attrs=[0], n_dimensions=0)]: a tree with no axis. *)
Definition tree_0d : Ntree.t :=
  Ntree.mk (Some 0) [] [] 8 (NumList [0%Q]) 1
    (Node.__init__ [] (NumList [0%Q]) 0 8).

(** [Node(ranges, [a], level, max_level=2)], a leaf. *)
Definition leaf (rs : ndarray) (a : Q) (lv : Z) : Node.t :=
  Node.__init__ rs (NumList [a]) lv 2.

(** The same node once split into [children]. *)
Definition internal (rs : ndarray) (a : Q) (lv : Z) (children : list Node.t)
  : Node.t :=
  Node.set_nodes (Some children) (leaf rs a lv).

(** The four quadrants of a square cell, in the order of
    [self.nodes.flatten()]. *)
Definition quadrants (x0 x1 y0 y1 : Q) : list ndarray :=
  let xm := ((x0 + x1) / 2)%Q in
  let ym := ((y0 + y1) / 2)%Q in
  [ [(x0, xm); (y0, ym)]; [(x0, xm); (ym, y1)];
    [(xm, x1); (y0, ym)]; [(xm, x1); (ym, y1)] ].

(** A cell of level [lv] split into four leaves with the attributes [as_]. *)
Definition split_cell (x0 x1 y0 y1 : Q) (lv : Z) (as_ : list Q) : Node.t :=
  internal [(x0, x1); (y0, y1)] 0 lv
    (map (fun p => leaf (fst p) (snd p) (lv + 1))
         (combine (quadrants x0 x1 y0 y1) as_)).

(** A tree over [0,4) x [0,4) of depth 2: the first quadrant holds the
    leaves 1, 2, 1, 1; the second holds four leaves 1; the other two are
    leaves 1. *)
Definition mixed_quadrant : Node.t := split_cell 0 2 0 2 1 [1; 2; 1; 1]%Q.
Definition uniform_quadrant : Node.t := split_cell 0 2 2 4 1 [1; 1; 1; 1]%Q.
Definition half_merged : Node.t :=
  internal [(0, 4); (0, 4)]%Q 0 0
    [ mixed_quadrant; uniform_quadrant;
      leaf [(2, 4); (0, 2)]%Q 1 1; leaf [(2, 4); (2, 4)]%Q 1 1 ].

(** [Node([[0, 1]], [0], level=0, max_level=0)]: the root of
    [Ntree([[0, 1]], attrs=[0], n_dimensions=1, max_depth=0)], a node at
    depth max_depth. *)
Definition floor_node : Node.t := Node.__init__ [(0, 1)]%Q (NumList [0%Q]) 0 0.

(** The subscript holds a number (and not only slices). *)
Definition has_number (c : Ntree.coords) : bool :=
  existsb (fun el => match el with
                     | Ntree.At _ => true
                     | Ntree.Span _ => false
                     end)
          match c with
          | Ntree.One el => [el]
          | Ntree.Many els => els
          end.



(** The outcomes the subscript methods have: a value, or one of the three
    exceptions their bodies can raise. *)
Definition read_outcome {A} (r : result A) : Prop :=
  match r with
  | Ok _ => True
  | Raise AssertionError | Raise IndexError | Raise AttributeError => True
  | Raise _ => False
  end.

(** ** The vocabulary of the further properties *)

(** The subscript is made of slices only. *)
Definition only_slices (els : list Ntree.coord) : bool :=
  forallb (fun el => match el with
                     | Ntree.Span _ => true
                     | Ntree.At _ => false
                     end) els.

(** The rows a subscript of slices stands for over the bounds [rs]: axis by
    axis the sides the slice gives, the bound of the axis for a side it
    leaves out, and the bounds themselves for the axes after the last
    slice. *)
Fixpoint fill_slices (els : list Ntree.coord) (rs : ndarray) : ndarray :=
  match els, rs with
  | Ntree.Span s :: els', (lo, hi) :: rs' =>
      (match Ntree.start s with Some x => x | None => lo end,
       match Ntree.stop s with Some x => x | None => hi end)
      :: fill_slices els' rs'
  | _, _ => rs
  end.

(** The operations that go through the subscript wrappers of the tree. *)
Definition through_wrappers (o : operation) : bool :=
  match o with
  | Assign _ _ | Del _ | CallSetitem _ | CallDelitem _ => true
  | RootSetitem _ _ | RootMerge => false
  end.

(** The attributes of the leaves of a subtree, in the order of
    [self.nodes.flatten()]. *)
Fixpoint leaves (n : Node.t) : list pyval :=
  match n with
  | Node.mk _ _ a _ _ None => [a]
  | Node.mk _ _ _ _ _ (Some children) =>
      (fix all (l : list Node.t) : list pyval :=
         match l with
         | [] => []
         | c :: l' => leaves c ++ all l'
         end) children
  end.

(** Every internal node of the subtree has a child, and every leaf holds
    attributes equal to [a]. *)
Fixpoint uniform (a : pyval) (n : Node.t) : bool :=
  match n with
  | Node.mk _ _ b _ _ None => py_eqb a b
  | Node.mk _ _ _ _ _ (Some children) =>
      match children with
      | [] => false
      | _ :: _ =>
          (fix all (l : list Node.t) : bool :=
             match l with
             | [] => true
             | c :: l' => uniform a c && all l'
             end) children
      end
  end.

(** The spans of the bounds are all positive. *)
Definition positive_spans (rs : ndarray) : bool :=
  forallb (fun r => negb (Qle_bool (snd r) (fst r))) rs.

(** * Properties *)

(** ** Reading never writes *)

Ltac run_step :=
  unfold bind, ret, raise, gets, modify, lift, zoom,
    Node.missing_attribute, Ntree.missing_attribute; simpl.

Lemma assign_row_outcome (rs : ndarray) (i : nat) (row : Q * Q) :
  read_outcome (Ntree.assign_row rs i row).
Proof.
  revert i; induction rs as [| r rs' IH]; intros i; simpl.
  - destruct i; exact I.
  - destruct i as [| i']; [exact I |].
    specialize (IH i').
    destruct (Ntree.assign_row rs' i' row); simpl in *; assumption.
Qed.

Section Frames.

Variable self : Ntree.t.

Lemma set_root_root : Ntree.set_root self (Ntree.root self) = self.
Proof. destruct self; reflexivity. Qed.

Lemma ranges_row_run (i : nat) :
  exists r, Ntree.ranges_row i self = (self, r) /\ read_outcome r.
Proof.
  unfold Ntree.ranges_row. run_step.
  destruct (nth_error (Ntree.ranges self) i); eexists; split;
    try reflexivity; exact I.
Qed.

Lemma slice_row_run (i : nat) (s : Ntree.slice) :
  exists r, Ntree.slice_row i s self = (self, r) /\ read_outcome r.
Proof.
  destruct (ranges_row_run i) as [rr [Hrow Hrr]].
  unfold Ntree.slice_row, bind, ret.
  destruct s as [[a |] [b |] stp]; simpl; rewrite ?Hrow;
    try (destruct rr as [row | e]; simpl; rewrite ?Hrow; simpl);
    eexists; (split; [reflexivity | first [exact I | exact Hrr]]).
Qed.

Lemma scalar_row_run (i : nat) (c : Q) :
  exists e, Ntree.scalar_row i c self = (self, Raise e) /\
            (e = IndexError \/ e = AttributeError).
Proof.
  unfold Ntree.scalar_row, Ntree.ranges_row. run_step. unfold bind.
  destruct (nth_error (Ntree.ranges self) i); eexists; split;
    try reflexivity; auto.
Qed.

Lemma parse_loop_run (els : list Ntree.coord) :
  forall (i : nat) (rs : ndarray),
  exists r, Ntree.parse_loop i els rs self = (self, r) /\ read_outcome r.
Proof.
  induction els as [| el els' IH]; intros i rs; simpl.
  - eexists; split; [reflexivity | exact I].
  - destruct el as [c | s].
    + destruct (scalar_row_run i c) as [e [Hrow He]].
      unfold bind at 1. rewrite Hrow.
      eexists; split; [reflexivity |].
      destruct He as [-> | ->]; exact I.
    + destruct (slice_row_run i s) as [rr [Hrow Hrr]].
      unfold bind at 1. rewrite Hrow.
      destruct rr as [row | e];
        [| eexists; split; [reflexivity | exact Hrr]].
      unfold bind, lift.
      pose proof (assign_row_outcome rs i row) as Ha.
      destruct (Ntree.assign_row rs i row) as [rs' | e'].
      * apply IH.
      * eexists; split; [reflexivity | exact Ha].
Qed.

Lemma parse_coords_run (c : Ntree.coords) :
  exists r, Ntree._parse_coords c self = (self, r) /\ read_outcome r.
Proof.
  unfold Ntree._parse_coords. run_step. unfold bind.
  match goal with
  | |- context [if ?b then _ else _] => destruct b
  end.
  - eexists; split; [reflexivity | exact I].
  - apply parse_loop_run.
Qed.

End Frames.

Lemma Node_getitem_run (coords : ndarray) (n : Node.t) :
  exists r, Node.__getitem__ coords n = (n, r) /\ read_outcome r.
Proof.
  unfold Node.__getitem__. run_step. unfold bind.
  destruct (Node.nodes n).
  - eexists; split; [reflexivity | exact I].
  - destruct coords as [| s coords']; simpl;
      eexists; (split; [reflexivity | exact I]).
Qed.

Lemma Ntree_getitem_run (c : Ntree.coords) (self : Ntree.t) :
  exists r, Ntree.__getitem__ c self = (self, r) /\ read_outcome r.
Proof.
  unfold Ntree.__getitem__, bind.
  destruct (parse_coords_run self c) as [rc [Hc Hrc]]. rewrite Hc.
  destruct rc as [c' | e]; [| eexists; split; [reflexivity | exact Hrc]].
  unfold zoom.
  destruct (Node_getitem_run c' (Ntree.root self)) as [r [Hr Hor]].
  rewrite Hr, set_root_root. eexists; split; [reflexivity | exact Hor].
Qed.

(** The three trees are what the constructor builds. *)
Lemma tree_1d_built :
  Ntree.__init__ (Some [(0, 4)]%Q) None (NumList [0%Q]) (Some 1) 2
  = Ok tree_1d.
Proof. reflexivity. Qed.

Lemma tree_2d_built :
  Ntree.__init__ (Some [(0, 4); (0, 4)]%Q) None (NumList [0%Q]) (Some 2) 2
  = Ok tree_2d.
Proof. reflexivity. Qed.

Lemma tree_0d_built :
  Ntree.__init__ (Some []) None (NumList [0%Q]) (Some 0) 8 = Ok tree_0d.
Proof. reflexivity. Qed.

(** ** The wrappers of [Ntree] *)

(** C9. [Ntree.__setitem__] and [Ntree.__delitem__] are the read: on every
    tree and every coords they return what [Ntree.__getitem__] returns (the
    same array, or the same exception), and the tree they leave is the tree
    they were given, root and descendants included. This holds in
    particular for the calls that end without an exception. *)
Theorem C9_setitem_delitem_are_getitem (c : Ntree.coords) (self : Ntree.t) :
  Ntree.__setitem__ c self = Ntree.__getitem__ c self /\
  Ntree.__delitem__ c self = Ntree.__getitem__ c self /\
  fst (Ntree.__setitem__ c self) = self /\
  fst (Ntree.__delitem__ c self) = self /\
  Ntree.root (fst (Ntree.__setitem__ c self)) = Ntree.root self /\
  Ntree.root (fst (Ntree.__delitem__ c self)) = Ntree.root self.
Proof.
  assert (Hs : Ntree.__setitem__ c self = Ntree.__getitem__ c self)
    by reflexivity.
  assert (Hd : Ntree.__delitem__ c self = Ntree.__getitem__ c self)
    by reflexivity.
  destruct (Ntree_getitem_run c self) as [r [Hr _]].
  rewrite Hs, Hd, Hr. simpl. repeat split; reflexivity.
Qed.

(** A call of the three that does end without an exception: the tree with
    no axis, read at the empty tuple. *)
Example getitem_returns_on_tree_0d :
  Ntree.__getitem__ (Ntree.Many []) tree_0d
  = (tree_0d, Ok (mkDense (NumList [0%Q]) [])).
Proof. reflexivity. Qed.

Lemma del_subscript_run (c : Ntree.coords) (self : Ntree.t) :
  exists r, Ntree.del_subscript c self = (self, r) /\ read_outcome r.
Proof.
  unfold Ntree.del_subscript, bind, ret.
  change (Ntree.__delitem__ c self) with (Ntree.__getitem__ c self).
  destruct (Ntree_getitem_run c self) as [r [Hr Hor]]. rewrite Hr.
  destruct r as [d | e]; eexists; (split; [reflexivity |]);
    [exact I | exact Hor].
Qed.

(** C1 (the code at the failing input). On the tree over [0,4) x [0,4)
    with default [0], region R = [0,2) x [0,4) and value A = [1]: the
    statement [t[R] = A] raises TypeError, since [Ntree.__setitem__] takes no
    value; the call [t.__setitem__(R)] runs the read of R, which raises
    AttributeError; both leave the tree as it was, and the read of R that
    follows raises AttributeError instead of returning an array of A. On the
    tree with no axis, where the calls do return, the array read after the
    set holds the default [0], not A. On no tree does either form of the set
    change anything. *)
Theorem C1_set_does_not_write :
  let R := Ntree.Many [span 0 2; span 0 4] in
  let A := NumList [1%Q] in
  Ntree.assign_subscript R A tree_2d = (tree_2d, Raise TypeError) /\
  Ntree.__setitem__ R tree_2d = (tree_2d, Raise AttributeError) /\
  Ntree.__getitem__ R tree_2d = (tree_2d, Raise AttributeError) /\
  (exists d,
     Ntree.__getitem__ (Ntree.Many [])
       (fst (Ntree.__setitem__ (Ntree.Many []) tree_0d)) = (tree_0d, Ok d) /\
     filled_with A d = false) /\
  (forall (self : Ntree.t) (c : Ntree.coords) (value : pyval),
     fst (Ntree.assign_subscript c value self) = self /\
     fst (Ntree.__setitem__ c self) = self).
Proof.
  repeat split.
  - exists (mkDense (NumList [0%Q]) []). split; reflexivity.
  - change (Ntree.__setitem__ c self) with (Ntree.__getitem__ c self).
    destruct (Ntree_getitem_run c self) as [r [Hr _]].
    rewrite Hr. reflexivity.
Qed.

(** C2 (the code at the failing input). On the same tree and region,
    [del t[R]] runs the read of R and raises AttributeError, while
    [t[R] = t.dflt_attrs] raises TypeError. On every tree the two
    statements are told apart by their outcome: the assignment raises
    TypeError, the deletion never does, because it is the read
    ([__delitem__] is [__getitem__]) and reaches neither
    [Node.__setitem__] nor [Node._merge]. *)
Theorem C2_del_is_the_read_not_a_write :
  let R := Ntree.Many [span 0 2; span 0 4] in
  Ntree.del_subscript R tree_2d = (tree_2d, Raise AttributeError) /\
  Ntree.assign_subscript R (Ntree.dflt_attrs tree_2d) tree_2d
  = (tree_2d, Raise TypeError) /\
  (forall (self : Ntree.t) (c : Ntree.coords),
     Ntree.__delitem__ c self = Ntree.__getitem__ c self /\
     snd (Ntree.assign_subscript c (Ntree.dflt_attrs self) self)
     = Raise TypeError /\
     snd (Ntree.del_subscript c self) <> Raise TypeError).
Proof.
  repeat split.
  destruct (del_subscript_run c self) as [r [Hr Hor]]. rewrite Hr. simpl.
  intros ->. exact Hor.
Qed.

(** ** Bounds *)


(** A slice is taken as it is given, whatever the bounds are. *)
Lemma parse_coords_slice_unchecked
    (self : Ntree.t) (d : Z) (row : Q * Q) (rest : ndarray) (a b : Q) :
  Ntree.dims self = Some d -> 1 <= d ->
  Ntree.ranges self = row :: rest ->
  Ntree._parse_coords (Ntree.One (span a b)) self
  = (self, Ok ((a, b) :: rest)).
Proof.
  intros Hd Hle Hr. unfold Ntree._parse_coords. run_step. unfold bind.
  rewrite Hd. simpl.
  destruct (Z.leb_spec 1 d); [| lia]. simpl.
  rewrite Hr. reflexivity.
Qed.

(** ** Coordinates *)

Lemma assign_row_raises (rs : ndarray) (i : nat) (row : Q * Q) (e : exn) :
  Ntree.assign_row rs i row = Raise e -> e = IndexError.
Proof.
  revert i; induction rs as [| r rs' IH]; intros i; simpl.
  - destruct i; intros H; inversion H; reflexivity.
  - destruct i as [| i']; [discriminate |].
    specialize (IH i').
    destruct (Ntree.assign_row rs' i' row); [discriminate |].
    intros H; inversion H; subst. apply IH. reflexivity.
Qed.

Lemma slice_row_raises
    (self self' : Ntree.t) (i : nat) (s : Ntree.slice) (e : exn) :
  Ntree.slice_row i s self = (self', Raise e) -> e = IndexError.
Proof.
  unfold Ntree.slice_row, Ntree.ranges_row. run_step. unfold bind.
  destruct s as [[a |] [b |] stp]; simpl;
    destruct (nth_error (Ntree.ranges self) i) eqn:E; simpl;
    rewrite ?E; simpl; intros H; inversion H; reflexivity.
Qed.

Lemma parse_loop_number (self : Ntree.t) (els : list Ntree.coord) :
  existsb (fun el => match el with
                     | Ntree.At _ => true
                     | Ntree.Span _ => false
                     end) els = true ->
  forall (i : nat) (rs : ndarray),
  exists e, Ntree.parse_loop i els rs self = (self, Raise e) /\
            (e = IndexError \/ e = AttributeError).
Proof.
  induction els as [| el els' IH]; simpl; [discriminate |].
  intros Hnum i rs. destruct el as [c | s].
  - destruct (scalar_row_run self i c) as [e [Hrow He]].
    unfold bind at 1. rewrite Hrow. eexists; split; [reflexivity | exact He].
  - simpl in Hnum.
    destruct (slice_row_run self i s) as [rr [Hrow Hrr]].
    unfold bind at 1. rewrite Hrow.
    destruct rr as [row | e].
    + unfold bind, lift.
      destruct (Ntree.assign_row rs i row) as [rs' | e'] eqn:Ha.
      * apply (IH Hnum).
      * eexists; split; [reflexivity |].
        left. exact (assign_row_raises _ _ _ _ Ha).
    + eexists; split; [reflexivity |].
      left. exact (slice_row_raises _ _ _ _ _ Hrow).
Qed.

(** C8 (the code at the failing input). A number as a coordinate never
    becomes an interval. On the tree over [0,4) with max_depth 2, the
    coordinate 1 raises AttributeError where the specification has the
    interval [1,2). On every tree, [_parse_coords] raises on every subscript
    that holds a number: an AssertionError when [dims] is too small, an
    IndexError when [ranges] has no such row, an AttributeError at
    [self.max_level] otherwise. *)
Theorem C8_scalar_coordinate_raises :
  Ntree._parse_coords (Ntree.One (Ntree.At 1)) tree_1d
  = (tree_1d, Raise AttributeError) /\
  (forall (self : Ntree.t) (c : Ntree.coords),
     has_number c = true ->
     exists e,
       Ntree._parse_coords c self = (self, Raise e) /\
       (e = AssertionError \/ e = IndexError \/ e = AttributeError)).
Proof.
  split; [reflexivity |].
  intros self c Hnum. unfold Ntree._parse_coords. run_step. unfold bind.
  match goal with
  | |- context [if ?b then _ else _] => destruct b
  end.
  - eexists; split; [reflexivity | auto].
  - destruct (parse_loop_number self _ Hnum 0%nat (Ntree.ranges self))
      as [e [Hrun He]].
    rewrite Hrun. eexists; split; [reflexivity |]. destruct He; auto.
Qed.

(** The other half of the normalization holds: a side of a slice that is
    missing is read from the bound of the tree on that axis. *)
Lemma parse_coords_slice_sides
    (self : Ntree.t) (d : Z) (lo hi : Q) (rest : ndarray)
    (a b stp : option Q) :
  Ntree.dims self = Some d -> 1 <= d ->
  Ntree.ranges self = (lo, hi) :: rest ->
  Ntree._parse_coords (Ntree.One (Ntree.Span (Ntree.mkSlice a b stp))) self
  = (self,
     Ok ((match a with Some x => x | None => lo end,
          match b with Some x => x | None => hi end) :: rest)).
Proof.
  intros Hd Hle Hr. unfold Ntree._parse_coords. run_step. unfold bind.
  rewrite Hd. simpl.
  destruct (Z.leb_spec 1 d); [| lia]. simpl.
  unfold Ntree.slice_row, Ntree.ranges_row. run_step. unfold bind.
  destruct a, b; simpl; rewrite ?Hr; reflexivity.
Qed.

(** ** The write and the merge of [Node] *)

(** What [Node.__setitem__] does, in full: with [level <= max_level] it
    reads [self._contained_by] and raises; otherwise it stores the value. *)
Lemma Node_setitem_run (c : ndarray) (value : pyval) (n : Node.t) :
  Node.__setitem__ c value n
  = if Node.level n <=? Node.max_level n
    then (n, Raise AttributeError)
    else (Node.set_attrs value n, Ok true).
Proof.
  unfold Node.__setitem__, Node.setitem_body. run_step. unfold bind.
  destruct (Node.level n <=? Node.max_level n); reflexivity.
Qed.

Lemma merge_leaf (n : Node.t) :
  Node.nodes n = None -> Node._merge n = (n, Ok true).
Proof. destruct n as [d r a lv ml ns]; simpl; intros ->; reflexivity. Qed.

(** The value of [_merge] tells whether the node is a leaf afterwards. *)
Lemma merge_true_iff_leaf (n n' : Node.t) (b : bool) :
  Node._merge n = (n', Ok b) -> (b = true <-> Node.nodes n' = None).
Proof.
  destruct n as [d r a lv ml [children |]]; simpl.
  - destruct (Node.all_merged Node._merge children) as [children' merged].
    destruct merged as [[|] | e].
    + destruct children' as [| first rest]; [discriminate |].
      match goal with
      | |- context [if ?t then _ else _] => destruct t
      end; intros H; inversion H; subst; simpl; split;
        congruence.
    + intros H; inversion H; subst; simpl; split; congruence.
    + discriminate.
  - intros H; inversion H; subst; simpl; split; congruence.
Qed.

(** Over leaves, the loop of [_merge] visits every child and changes none. *)
Lemma all_merged_leaves (children : list Node.t) :
  forallb is_leaf children = true ->
  Node.all_merged Node._merge children = (children, Ok true).
Proof.
  induction children as [| n rest IH]; simpl; [reflexivity |].
  intros H. apply andb_prop in H. destruct H as [Hn Hrest].
  rewrite merge_leaf.
  - rewrite (IH Hrest). reflexivity.
  - unfold is_leaf in Hn. destruct (Node.nodes n); [discriminate | reflexivity].
Qed.

(** A node whose children are all leaves collapses exactly when their
    attributes all compare equal to those of the first one; it then holds
    these attributes. *)
Lemma merge_of_leaves
    (d : Z) (r : ndarray) (a : pyval) (lv ml : Z)
    (first : Node.t) (rest : list Node.t) :
  forallb is_leaf (first :: rest) = true ->
  Node._merge (Node.mk d r a lv ml (Some (first :: rest)))
  = if forallb (fun n => py_eqb (Node.attrs first) (Node.attrs n))
         (first :: rest)
    then (Node.mk d r (Node.attrs first) lv ml None, Ok true)
    else (Node.mk d r a lv ml (Some (first :: rest)), Ok false).
Proof.
  intros H. 
  change (Node._merge (Node.mk d r a lv ml (Some (first :: rest))))
    with (let '(children', merged) :=
            Node.all_merged Node._merge (first :: rest) in
          let self' := Node.mk d r a lv ml (Some children') in
          match merged with
          | Raise e => (self', Raise e)
          | Ok false => (self', Ok false)
          | Ok true =>
              match children' with
              | [] => (self', Raise IndexError)
              | first' :: _ =>
                  let cmp_val := Node.attrs first' in
                  if forallb (fun n => py_eqb cmp_val (Node.attrs n))
                       children'
                  then (Node.mk d r cmp_val lv ml None, Ok true)
                  else (self', Ok false)
              end
          end).
  rewrite (all_merged_leaves _ H). reflexivity.
Qed.

(** C4 (the code at the failing input). [_merge] on the root of
    [half_merged] visits the first quadrant, whose leaves differ, gets
    false, and returns false at once: the second quadrant is never
    visited, and stays an internal node with four equal leaves, which its
    own [_merge] would have collapsed into a leaf. *)
Theorem C4_merge_stops_at_first_unmerged_child :
  Node._merge half_merged = (half_merged, Ok false) /\
  (exists children,
     Node.nodes (fst (Node._merge half_merged)) = Some children /\
     nth_error children 1 = Some uniform_quadrant) /\
  is_leaf uniform_quadrant = false /\
  minimal uniform_quadrant = false /\
  snd (Node._merge uniform_quadrant) = Ok true /\
  is_leaf (fst (Node._merge uniform_quadrant)) = true.
Proof.
  repeat split.
  eexists; split; reflexivity.
Qed.

(** C5 (the code at the failing input). The guard of the write is
    [level <= max_level]: a node at depth max_depth is not overwritten. The
    write goes on to [self._contained_by], which raises AttributeError, and
    the attributes stay as they were. Were [_contained_by] defined and its
    answer false, the write of a leaf at depth max_depth would go on to
    [_split], that is, subdivide. *)
Theorem C5_write_at_max_depth_does_not_overwrite
    (n : Node.t) (c : ndarray) (value : pyval) :
  Node.level n = Node.max_level n ->
  Node.__setitem__ c value n = (n, Raise AttributeError) /\
  (forall contained_by : ndarray -> M Node.t bool,
     Node.nodes n = None ->
     contained_by c n = (n, Ok false) ->
     Node.setitem_body contained_by c value n = (n, Raise NameError)).
Proof.
  intros Hlevel. split.
  - rewrite Node_setitem_run, Hlevel, Z.leb_refl. reflexivity.
  - intros contained_by Hleaf Hcb.
    unfold Node.setitem_body. run_step. unfold bind.
    rewrite Hlevel, Z.leb_refl, Hcb. simpl. rewrite Hleaf.
    reflexivity.
Qed.

(** The theorem at [floor_node], the root of a tree of max_depth 0, written
    with the value [1] over its whole range. *)
Lemma C5_write_at_max_depth_does_not_overwrite_witness :
  Node.level floor_node = Node.max_level floor_node /\
  Node.__setitem__ [(0, 1)%Q] (NumList [1%Q]) floor_node
  = (floor_node, Raise AttributeError).
Proof.
  split; [reflexivity |].
  apply (C5_write_at_max_depth_does_not_overwrite
           floor_node [(0, 1)%Q] (NumList [1%Q])).
  reflexivity.
Defined.

(** Only below max_depth is the value stored at once. *)
Example write_below_max_depth :
  let n := Node.__init__ [(0, 1)%Q] (NumList [0%Q]) 1 0 in
  Node.__setitem__ [(0, 1)%Q] (NumList [1%Q]) n
  = (Node.set_attrs (NumList [1%Q]) n, Ok true).
Proof. reflexivity. Qed.

(** Nothing checks the depth at construction: with a resolution larger
    than the span, the root is deeper than max_depth. *)
Example root_deeper_than_max_depth :
  exists self,
    Ntree.__init__ (Some [(0, 1)]%Q) (Some (Num 4)) (NumList [0%Q])
      (Some 1) 8 = Ok self /\
    Ntree.max_depth self = -2 /\ Node.level (Ntree.root self) = 0.
Proof. eexists; repeat split. Qed.

(** ** The shape of the tree between operations *)

Lemma init_root_is_leaf
    (ranges : option ndarray) (resolution : option pyval) (attrs : pyval)
    (n_dimensions : option Z) (max_depth : Z) (self : Ntree.t) :
  Ntree.__init__ ranges resolution attrs n_dimensions max_depth = Ok self ->
  is_leaf (Ntree.root self) = true.
Proof.
  unfold Ntree.__init__.
  destruct (Ntree.configure ranges resolution n_dimensions max_depth)
    as [[[[d rs] res] md] | e]; [| discriminate].
  destruct (py_len attrs); [| discriminate].
  simpl. intros H; inversion H; subst; reflexivity.
Qed.

Lemma after_keeps_leaf (o : operation) (self : Ntree.t) :
  is_leaf (Ntree.root self) = true ->
  is_leaf (Ntree.root (after o self)) = true.
Proof.
  intros Hleaf.
  assert (Hget : forall c, fst (Ntree.__getitem__ c self) = self).
  { intros c. destruct (Ntree_getitem_run c self) as [r [Hr _]].
    rewrite Hr. reflexivity. }
  destruct o as [c v | c | c | c | c v |]; simpl.
  - exact Hleaf.
  - unfold Ntree.del_subscript, bind, ret.
    change (Ntree.__delitem__ c self) with (Ntree.__getitem__ c self).
    destruct (Ntree_getitem_run c self) as [r [Hr _]]. rewrite Hr.
    destruct r; exact Hleaf.
  - change (Ntree.__setitem__ c self) with (Ntree.__getitem__ c self).
    rewrite Hget. exact Hleaf.
  - change (Ntree.__delitem__ c self) with (Ntree.__getitem__ c self).
    rewrite Hget. exact Hleaf.
  - unfold zoom. rewrite Node_setitem_run.
    destruct (Node.level (Ntree.root self) <=? Node.max_level (Ntree.root self));
      simpl; exact Hleaf.
  - unfold zoom. rewrite merge_leaf.
    + simpl. exact Hleaf.
    + unfold is_leaf in Hleaf.
      destruct (Node.nodes (Ntree.root self)); [discriminate | reflexivity].
Qed.

Lemma after_all_keeps_leaf (ops : list operation) :
  forall self : Ntree.t,
  is_leaf (Ntree.root self) = true ->
  is_leaf (Ntree.root (after_all ops self)) = true.
Proof.
  induction ops as [| o ops' IH]; intros self Hleaf; simpl.
  - exact Hleaf.
  - apply IH. apply after_keeps_leaf. exact Hleaf.
Qed.

Lemma leaf_is_minimal (n : Node.t) : is_leaf n = true -> minimal n = true.
Proof.
  destruct n as [d r a lv ml [children |]]; simpl;
    [discriminate | reflexivity].
Qed.

(** A freshly constructed tree stays minimal under every sequence of
    operations, for want of a write: none of them can create an internal
    node, and the root stays the leaf the constructor made. *)
Lemma fresh_tree_stays_minimal
    (ranges : option ndarray) (resolution : option pyval) (attrs : pyval)
    (n_dimensions : option Z) (max_depth : Z) (self : Ntree.t)
    (ops : list operation) :
  Ntree.__init__ ranges resolution attrs n_dimensions max_depth = Ok self ->
  minimal (Ntree.root (after_all ops self)) = true.
Proof.
  intros Hinit. apply leaf_is_minimal, after_all_keeps_leaf.
  exact (init_root_is_leaf _ _ _ _ _ _ Hinit).
Qed.

(** [Np.clog2] is the ceiling of log2: for q = n/d > 0 and k = clog2 q,
    2^(k-1) < q <= 2^k, stated on integers for either sign of k. *)
Lemma clog2_bounds (n : Z) (d : positive) :
  0 < n ->
  let k := Np.clog2 (n # d) in
  (0 <= k -> n <= Z.pos d * 2 ^ k /\ Z.pos d * 2 ^ k < 2 * n) /\
  (k <= 0 -> n * 2 ^ (- k) <= Z.pos d /\ Z.pos d < 2 * n * 2 ^ (- k)).
Proof.
  intros Hn. unfold Np.clog2. simpl Qnum. simpl Qden.
  set (D := Z.pos d). assert (HD : 0 < D) by (unfold D; lia).
  destruct (Z.leb_spec D n) as [Hle | Hlt].
  - remember ((n + D - 1) / D) as c eqn:Ec.
    assert (Hc : D * (c - 1) < n <= D * c).
    { subst c. assert (HD0 : D <> 0) by lia.
      pose proof (Z.div_mod (n + D - 1) D HD0) as E.
      pose proof (Z.mod_pos_bound (n + D - 1) D HD) as B. split; lia. }
    assert (Hc1 : 1 <= c) by nia.
    pose proof (Z.log2_up_nonneg c) as Hk0.
    destruct (Z.eq_dec c 1) as [Hone | Hne].
    + subst c. rewrite Hone in *. change (Z.log2_up 1) with 0.
      change (- 0) with 0. rewrite !Z.pow_0_r. split; intros _; lia.
    + pose proof (Z.log2_up_spec c ltac:(lia)) as [Hlo Hhi].
      set (k := Z.log2_up c) in *.
      assert (Hkpos : 0 < k) by (unfold k; apply Z.log2_up_pos; lia).
      assert (Hpow : 2 ^ k = 2 * 2 ^ Z.pred k).
      { replace k with (Z.succ (Z.pred k)) at 1 by lia.
        apply Z.pow_succ_r. lia. }
      split; intros Hk; [| lia].
      split; nia.
  - set (f := D / n).
    assert (Hf : n * f <= D < n * (f + 1)).
    { unfold f. assert (Hn0 : n <> 0) by lia.
      pose proof (Z.div_mod D n Hn0) as E.
      pose proof (Z.mod_pos_bound D n Hn) as B. split; lia. }
    assert (Hf1 : 1 <= f) by nia.
    pose proof (Z.log2_spec f ltac:(lia)) as [Hlo Hhi].
    pose proof (Z.log2_nonneg f) as Hj.
    set (j := Z.log2 f) in *.
    assert (Hpow : 2 ^ Z.succ j = 2 * 2 ^ j) by (apply Z.pow_succ_r; lia).
    assert (Hp : 0 < 2 ^ j) by (apply Z.pow_pos_nonneg; lia).
    split; intros Hk.
    + assert (Hj0 : j = 0) by lia. rewrite Hj0 in *.
      change (- 0) with 0. rewrite !Z.pow_0_r in *.
      assert (Hf1' : f = 1) by lia. rewrite Hf1' in Hf. lia.
    + rewrite Z.opp_involutive. split; nia.
Qed.

(** ** The constructor *)

(** C10. With an attrs argument that is a number (the default [attrs=0]
    included), the constructor never returns a tree: if lines 80 to 108 go
    through, [len(attrs)] raises TypeError; otherwise their own exception
    is raised. Only [dflt_attrs] was wrapped in a list. *)
Theorem C10_scalar_attrs_raise
    (ranges : option ndarray) (resolution : option pyval) (q : Q)
    (n_dimensions : option Z) (max_depth : Z) :
  py_len (Num q) = Raise TypeError /\
  Ntree.__init__ ranges resolution (Num q) n_dimensions max_depth
  = match Ntree.configure ranges resolution n_dimensions max_depth with
    | Ok _ => Raise TypeError
    | Raise e => Raise e
    end /\
  (forall self : Ntree.t,
     Ntree.__init__ ranges resolution (Num q) n_dimensions max_depth
     <> Ok self).
Proof.
  split; [reflexivity |].
  unfold Ntree.__init__.
  destruct (Ntree.configure ranges resolution n_dimensions max_depth)
    as [[[[d rs] res] md] | e]; simpl; split;
    try reflexivity; intros self; discriminate.
Qed.

(** The call [Ntree([[0, 100], [0, 100]])], with every default. *)
Example default_attrs_raise :
  Ntree.__init__ (Some [(0, 100); (0, 100)]%Q) None (Num 0) None 8
  = Raise TypeError.
Proof. reflexivity. Qed.

(** The call at the end of the source file, [Ntree([[0, 100], [0, 100]], 0)]:
    the second positional argument is the resolution. *)
Example main_call_raises :
  Ntree.__init__ (Some [(0, 100); (0, 100)]%Q) (Some (Num 0)) (Num 0) None 8
  = Raise OverflowError.
Proof. reflexivity. Qed.

(** Without ranges the constructor raises TypeError, whatever the rest. *)
Lemma init_without_ranges
    (resolution : option pyval) (attrs : pyval) (n_dimensions : option Z)
    (max_depth : Z) :
  Ntree.__init__ None resolution attrs n_dimensions max_depth
  = Raise TypeError.
Proof.
  unfold Ntree.__init__, Ntree.configure.
  destruct n_dimensions; reflexivity.
Qed.




(** * Further properties of the code *)

(** ** Subscripts and reads of the tree *)

Lemma assign_row_length (rs rs' : ndarray) (i : nat) (row : Q * Q) :
  Ntree.assign_row rs i row = Ok rs' -> List.length rs' = List.length rs.
Proof.
  revert i rs'; induction rs as [| r rest IH]; intros i rs'; simpl.
  - discriminate.
  - destruct i as [| i'].
    + intros H; inversion H; reflexivity.
    + destruct (Ntree.assign_row rest i' row) as [rest' |] eqn:E;
        [| discriminate].
      intros H; inversion H; subst; simpl. f_equal. exact (IH _ _ E).
Qed.

Lemma parse_loop_length (self : Ntree.t) (els : list Ntree.coord) :
  forall (i : nat) (rs rs' : ndarray) (s' : Ntree.t),
  Ntree.parse_loop i els rs self = (s', Ok rs') ->
  List.length rs' = List.length rs /\ (els <> [] -> rs <> []).
Proof.
  induction els as [| el els' IH]; intros i rs rs' s'; simpl.
  - unfold ret. intros H; inversion H; subst. split; [reflexivity |].
    intros Hne; contradiction Hne; reflexivity.
  - destruct el as [c | sl].
    + destruct (scalar_row_run self i c) as [e [Hrow _]].
      unfold bind at 1. rewrite Hrow. discriminate.
    + destruct (slice_row_run self i sl) as [rr [Hrow _]].
      unfold bind at 1. rewrite Hrow.
      destruct rr as [row | e]; [| discriminate].
      unfold bind, lift.
      destruct (Ntree.assign_row rs i row) as [rs1 |] eqn:Ha;
        [| discriminate].
      intros H. destruct (IH _ _ _ _ H) as [Hlen _].
      split.
      * rewrite Hlen. exact (assign_row_length _ _ _ _ Ha).
      * intros _ ->. destruct i; discriminate.
Qed.

Lemma Node_getitem_on_rows (n : Node.t) (s : Q * Q) (coords : ndarray) :
  Node.__getitem__ (s :: coords) n = (n, Raise AttributeError).
Proof.
  unfold Node.__getitem__. run_step. unfold bind.
  destruct (Node.nodes n); reflexivity.
Qed.

Lemma getitem_with_axis_run (self : Ntree.t) (c : Ntree.coords) :
  Ntree.ranges self <> [] ->
  exists e,
    Ntree.__getitem__ c self = (self, Raise e) /\
    (e = AssertionError \/ e = IndexError \/ e = AttributeError).
Proof.
  intros Hne. unfold Ntree.__getitem__, bind.
  destruct (parse_coords_run self c) as [rc [Hc Hrc]]. rewrite Hc.
  destruct rc as [c' | e].
  - assert (Hlen : List.length c' = List.length (Ntree.ranges self)).
    { revert Hc. unfold Ntree._parse_coords. run_step. unfold bind.
      match goal with
      | |- context [if ?b then _ else _] => destruct b
      end; [discriminate |].
      intros H. exact (proj1 (parse_loop_length _ _ _ _ _ _ H)). }
    destruct c' as [| s rest].
    + destruct (Ntree.ranges self); [contradiction Hne; reflexivity |].
      discriminate.
    + unfold zoom. rewrite Node_getitem_on_rows, set_root_root.
      eexists; split; [reflexivity | auto].
  - eexists; split; [reflexivity |].
    destruct e; simpl in Hrc; try contradiction; auto.
Qed.

(** X1. On a tree that has at least one axis, [Ntree.__getitem__] raises on
    every subscript (an AssertionError, an IndexError or an AttributeError)
    and leaves the tree as it was: a subscript that parses gives one row per
    axis, and the root reads no row. *)
Theorem X1_getitem_raises_on_every_axis
    (self : Ntree.t) (c : Ntree.coords) :
  Ntree.ranges self <> [] ->
  exists e,
    Ntree.__getitem__ c self = (self, Raise e) /\
    (e = AssertionError \/ e = IndexError \/ e = AttributeError).
Proof. exact (getitem_with_axis_run self c). Qed.

(** The theorem at the tree over [0,4) x [0,4), read in full. *)
Lemma X1_getitem_raises_on_every_axis_witness :
  Ntree.ranges tree_2d <> [] /\
  exists e,
    Ntree.__getitem__
      (Ntree.One (Ntree.Span (Ntree.mkSlice None None None))) tree_2d
    = (tree_2d, Raise e) /\
    (e = AssertionError \/ e = IndexError \/ e = AttributeError).
Proof.
  split; [discriminate |].
  apply (X1_getitem_raises_on_every_axis tree_2d). discriminate.
Defined.

(** X2. When [Ntree.__getitem__] does return, the tree has no axis, the
    subscript is the empty sequence, [dims] is a number, the root is a
    leaf, the array returned is the attributes of the root, untiled, and
    the tree is as it was. *)
Theorem X2_getitem_returns_only_the_root
    (self s' : Ntree.t) (c : Ntree.coords) (d : DenseArray) :
  Ntree.__getitem__ c self = (s', Ok d) ->
  s' = self /\
  Ntree.ranges self = [] /\
  c = Ntree.Many [] /\
  (exists k, Ntree.dims self = Some k /\ 0 <= k) /\
  is_leaf (Ntree.root self) = true /\
  d = mkDense (Node.attrs (Ntree.root self)) [].
Proof.
  intros H.
  destruct (Ntree.ranges self) as [| r0 rest] eqn:Hr.
  - revert H. unfold Ntree.__getitem__, Ntree._parse_coords.
    run_step. unfold bind.
    destruct (Ntree.dims self) as [k |] eqn:Hd; simpl; [| discriminate].
    match goal with
    | |- context [if ?b then _ else _] => destruct b eqn:Hb
    end; [discriminate |].
    assert (Hels : forall els,
              (let (s1, r) := Ntree.parse_loop 0 els (Ntree.ranges self) self
               in match r with
                  | Ok a =>
                      let (t', r0) :=
                        Node.__getitem__ a (Ntree.root s1) in
                      (Ntree.set_root s1 t', r0)
                  | Raise e => (s1, Raise e)
                  end) = (s', Ok d) -> els = []).
    { intros els. destruct (parse_loop_run self els 0%nat (Ntree.ranges self))
        as [r [Hrun _]].
      destruct els as [| el els']; [reflexivity |].
      rewrite Hrun. destruct r as [rs' |]; [| discriminate].
      destruct (parse_loop_length _ _ _ _ _ _ Hrun) as [_ Hne].
      rewrite Hr in Hne. exfalso. apply Hne; [discriminate | reflexivity]. }
    intros H.
    assert (Hc : match c with
                 | Ntree.One el => [el]
                 | Ntree.Many els => els
                 end = []) by (apply Hels; exact H).
    destruct c as [el | els]; [discriminate |]. subst els.
    revert H. simpl. rewrite Hr. unfold ret. simpl.
    unfold Node.__getitem__. run_step. unfold bind.
    destruct (Node.nodes (Ntree.root self)) eqn:Hn; [discriminate |].
    simpl. intros H; inversion H; subst.
    repeat split.
    + destruct self; reflexivity.
    + exists k. split; [reflexivity |]. 
      apply negb_false_iff in Hb. simpl in Hb. lia.
    + unfold is_leaf. rewrite Hn. reflexivity.
  - assert (Hne : Ntree.ranges self <> []) by (rewrite Hr; discriminate).
    destruct (getitem_with_axis_run self c Hne) as [e [He _]].
    rewrite He in H. discriminate.
Qed.

(** The theorem at the tree with no axis, read at the empty tuple. *)
Lemma X2_getitem_returns_only_the_root_witness :
  Ntree.__getitem__ (Ntree.Many []) tree_0d
  = (tree_0d, Ok (mkDense (NumList [0%Q]) [])) /\
  Ntree.ranges tree_0d = [] /\
  is_leaf (Ntree.root tree_0d) = true.
Proof.
  split; [reflexivity |].
  assert (H := X2_getitem_returns_only_the_root tree_0d tree_0d
                 (Ntree.Many []) (mkDense (NumList [0%Q]) []) eq_refl).
  destruct H as [_ [Hr [_ [_ [Hl _]]]]]. split; assumption.
Defined.

Lemma skipn_cons_nth {A} (l : list A) :
  forall (i : nat) (x : A) (t : list A),
  skipn i l = x :: t -> nth_error l i = Some x /\ skipn (S i) l = t.
Proof.
  induction l as [| y l' IH]; intros i x t.
  - destruct i; discriminate.
  - destruct i as [| i']; simpl.
    + intros H; inversion H; subst. split; reflexivity.
    + intros H. exact (IH _ _ _ H).
Qed.

Lemma assign_row_middle (pre suf : ndarray) (old row : Q * Q) :
  Ntree.assign_row (pre ++ old :: suf) (List.length pre) row
  = Ok (pre ++ row :: suf).
Proof.
  induction pre as [| p pre' IH]; simpl; [reflexivity |].
  rewrite IH. reflexivity.
Qed.

Lemma parse_loop_slices (self : Ntree.t) (els : list Ntree.coord) :
  only_slices els = true ->
  forall (pre suf : ndarray),
  skipn (List.length pre) (Ntree.ranges self) = suf ->
  (List.length els <= List.length suf)%nat ->
  Ntree.parse_loop (List.length pre) els (pre ++ suf) self
  = (self, Ok (pre ++ fill_slices els suf)).
Proof.
  induction els as [| el els' IH]; intros Hsl pre suf Hskip Hlen.
  - reflexivity.
  - destruct el as [c | s]; [discriminate |]. simpl in Hsl.
    destruct suf as [| [lo hi] suf']; [simpl in Hlen; lia |].
    destruct (skipn_cons_nth _ _ _ _ Hskip) as [Hnth Hskip'].
    assert (Hrow : Ntree.slice_row (List.length pre) s self
                   = (self,
                      Ok (match Ntree.start s with Some x => x | None => lo end,
                          match Ntree.stop s with Some x => x | None => hi end))).
    { unfold Ntree.slice_row, Ntree.ranges_row. run_step. unfold bind.
      destruct s as [[a |] [b |] stp]; simpl; rewrite ?Hnth; reflexivity. }
    simpl. unfold bind at 1. rewrite Hrow.
    unfold bind, lift. rewrite assign_row_middle.
    specialize (IH Hsl (pre ++ [(match Ntree.start s with
                                 | Some x => x | None => lo end,
                                 match Ntree.stop s with
                                 | Some x => x | None => hi end)]) suf').
    rewrite length_app in IH. simpl in IH.
    rewrite Nat.add_1_r in IH. rewrite <- !app_assoc in IH. simpl in IH.
    apply IH; [exact Hskip' | simpl in Hlen; lia].
Qed.

(** X3. A subscript made of slices only, no longer than [dims] and than
    the bounds, is parsed into one row per axis: the sides the slice gives,
    the bound of the tree for a side it leaves out, and the whole bound for
    every axis after the last slice. Nothing is clipped to the bounds, and
    the tree is not changed. *)
Theorem X3_slices_are_filled_from_the_bounds
    (self : Ntree.t) (els : list Ntree.coord) (d : Z) :
  only_slices els = true ->
  Ntree.dims self = Some d ->
  Z.of_nat (List.length els) <= d ->
  (List.length els <= List.length (Ntree.ranges self))%nat ->
  Ntree._parse_coords (Ntree.Many els) self
  = (self, Ok (fill_slices els (Ntree.ranges self))).
Proof.
  intros Hsl Hd Hle Hlen. unfold Ntree._parse_coords. run_step. unfold bind.
  rewrite Hd. simpl.
  destruct (Z.leb_spec (Z.of_nat (List.length els)) d); [| lia]. simpl.
  exact (parse_loop_slices self els Hsl [] (Ntree.ranges self) eq_refl Hlen).
Qed.

(** The theorem at the tree over [0,4) x [0,4) and [t[:2, 1:]]. *)
Lemma X3_slices_are_filled_from_the_bounds_witness :
  let els := [Ntree.Span (Ntree.mkSlice None (Some 2%Q) None);
              Ntree.Span (Ntree.mkSlice (Some 1%Q) None None)] in
  only_slices els = true /\
  Ntree.dims tree_2d = Some 2 /\
  Ntree._parse_coords (Ntree.Many els) tree_2d
  = (tree_2d, Ok [(0, 2); (1, 4)]%Q).
Proof.
  intros els. split; [reflexivity |]. split; [reflexivity |].
  change (Ntree._parse_coords (Ntree.Many els) tree_2d
          = (tree_2d, Ok (fill_slices els (Ntree.ranges tree_2d)))).
  apply (X3_slices_are_filled_from_the_bounds tree_2d els 2);
    [reflexivity | reflexivity | simpl; lia | simpl; lia].
Defined.

Lemma init_dims
    (ranges : option ndarray) (resolution : option pyval) (attrs : pyval)
    (n_dimensions : option Z) (max_depth : Z) (self : Ntree.t) :
  Ntree.__init__ ranges resolution attrs n_dimensions max_depth = Ok self ->
  exists rs,
    ranges = Some rs /\
    Ntree.ranges self = rs /\
    Ntree.dims self
    = match n_dimensions with
      | Some _ => Some (Z.of_nat (List.length rs))
      | None => None
      end.
Proof.
  destruct ranges as [rs |];
    [| rewrite init_without_ranges; discriminate].
  unfold Ntree.__init__, Ntree.configure. intros H. exists rs.
  split; [reflexivity |].
  unfold Np.pow2 in H.
  destruct n_dimensions; destruct resolution as [res |];
    try (destruct (Np.div_broadcast (Np.diff rs)
                     (Ntree.as_list res (Z.of_nat (List.length rs))))
           as [steps |]; [| discriminate];
         destruct (Np.max (map Np.log2 steps)) as [m |]; [| discriminate];
         destruct (Np.int_ceil m) as [k |]; [| discriminate]);
    try (destruct (1024 <=? max_depth); [discriminate |]);
    destruct (py_len attrs); try discriminate;
    simpl in H; inversion H; subst; simpl; split; reflexivity.
Qed.

(** X4. A tree constructed with [n_dimensions] left at its default [None]
    has [dims = None], and then every subscript fails the assertion of
    [_parse_coords]: get, set and delete all raise AssertionError and leave
    the tree as it was. *)
Theorem X4_default_n_dimensions_fails_every_subscript
    (ranges : option ndarray) (resolution : option pyval) (attrs : pyval)
    (max_depth : Z) (self : Ntree.t) (c : Ntree.coords) :
  Ntree.__init__ ranges resolution attrs None max_depth = Ok self ->
  Ntree.dims self = None /\
  Ntree.__getitem__ c self = (self, Raise AssertionError) /\
  Ntree.__setitem__ c self = (self, Raise AssertionError) /\
  Ntree.del_subscript c self = (self, Raise AssertionError).
Proof.
  intros H. destruct (init_dims _ _ _ _ _ _ H) as [rs [_ [_ Hd]]].
  split; [exact Hd |].
  assert (Hget : Ntree.__getitem__ c self = (self, Raise AssertionError)).
  { unfold Ntree.__getitem__, Ntree._parse_coords. run_step. unfold bind.
    rewrite Hd. reflexivity. }
  repeat split; try exact Hget.
  unfold Ntree.del_subscript, bind.
  change (Ntree.__delitem__ c self) with (Ntree.__getitem__ c self).
  rewrite Hget. reflexivity.
Qed.

(** The theorem at [Ntree([[0, 100], [0, 100]], resolution=10, attrs=[0])]
    read in full. *)
Lemma X4_default_n_dimensions_fails_every_subscript_witness :
  exists self,
    Ntree.__init__ (Some [(0, 100); (0, 100)]%Q) (Some (Num 10))
      (NumList [0%Q]) None 8 = Ok self /\
    Ntree.__getitem__
      (Ntree.One (Ntree.Span (Ntree.mkSlice None None None))) self
    = (self, Raise AssertionError).
Proof.
  eexists. split; [reflexivity |].
  eapply (X4_default_n_dimensions_fails_every_subscript
            (Some [(0, 100); (0, 100)]%Q) (Some (Num 10)) (NumList [0%Q]) 8).
  reflexivity.
Defined.

Lemma after_wrapper (o : operation) (self : Ntree.t) :
  through_wrappers o = true -> after o self = self.
Proof.
  assert (Hget : forall c, fst (Ntree.__getitem__ c self) = self).
  { intros c. destruct (Ntree_getitem_run c self) as [r [Hr _]].
    rewrite Hr. reflexivity. }
  destruct o as [c v | c | c | c | c v |]; simpl; intros H;
    try discriminate.
  - reflexivity.
  - destruct (del_subscript_run c self) as [r [Hr _]]. rewrite Hr.
    reflexivity.
  - apply Hget.
  - apply Hget.
Qed.

(** X5. No sequence of subscript statements and wrapper calls ([t[c] = v],
    [del t[c]], [t.__setitem__(c)], [t.__delitem__(c)]), whatever they
    return or raise, changes anything in a tree: the tree after the
    sequence is the tree before it, on every tree. *)
Theorem X5_wrappers_never_change_the_tree
    (ops : list operation) (self : Ntree.t) :
  forallb through_wrappers ops = true ->
  after_all ops self = self.
Proof.
  revert self; induction ops as [| o ops' IH]; intros self; simpl.
  - reflexivity.
  - intros H. apply andb_prop in H. destruct H as [Ho Hops].
    rewrite (after_wrapper o self Ho). exact (IH self Hops).
Qed.

(** The theorem at the tree over [0,4) x [0,4) and four operations. *)
Lemma X5_wrappers_never_change_the_tree_witness :
  let R := Ntree.Many [span 0 2; span 0 4] in
  let ops := [Assign R (NumList [1%Q]); CallSetitem R; Del R;
              CallDelitem R] in
  forallb through_wrappers ops = true /\ after_all ops tree_2d = tree_2d.
Proof.
  split; [reflexivity |].
  apply X5_wrappers_never_change_the_tree. reflexivity.
Defined.

(** ** The constructor: depth, resolution and their errors *)

Lemma div_by_scalar (xs : list Q) (r : Q) :
  Np.div_broadcast xs (Ntree.as_list (Num r) (Z.of_nat (List.length xs)))
  = Ok (map (fun x => Np.div x r) xs).
Proof.
  unfold Np.div_broadcast, Ntree.as_list. rewrite Nat2Z.id, repeat_length.
  rewrite Nat.eqb_refl. f_equal.
  induction xs as [| x xs' IH]; simpl; [reflexivity |].
  rewrite IH. reflexivity.
Qed.

Lemma fold_max2_pinf (xs : list Np.logv) :
  Forall (fun v => v = Np.LPInf) xs ->
  fold_left Np.max2 xs Np.LPInf = Np.LPInf.
Proof.
  induction xs as [| x xs' IH]; simpl; [reflexivity |].
  intros H. inversion H; subst. simpl. apply IH. assumption.
Qed.

Lemma positive_span_over_zero (row : Q * Q) (r : Q) :
  (r == 0)%Q ->
  negb (Qle_bool (snd row) (fst row)) = true ->
  Np.log2 (Np.div (snd row - fst row) r) = Np.LPInf.
Proof.
  intros Hr Hpos. unfold Np.div.
  rewrite (Qeq_eq_bool _ _ Hr).
  apply negb_true_iff in Hpos.
  assert (Hlt : (fst row < snd row)%Q).
  { apply Qnot_le_lt. intros Hle. apply Qle_bool_iff in Hle. congruence. }
  assert (Hd : (0 < snd row - fst row)%Q).
  { apply Qlt_minus_iff in Hlt. exact Hlt. }
  destruct (Qeq_bool (snd row - fst row) 0) eqn:E0.
  - apply Qeq_bool_iff in E0. rewrite E0 in Hd.
    exfalso. exact (Qlt_irrefl 0 Hd).
  - destruct (Qle_bool 0 (snd row - fst row)) eqn:E1; [reflexivity |].
    exfalso. apply Qlt_le_weak, Qle_bool_iff in Hd. congruence.
Qed.

(** X8. A resolution of zero does not divide by zero: with ranges whose
    spans are all positive, the steps are infinite and the constructor
    raises OverflowError at [int(np.ceil(...))], whatever the other
    arguments. The call at the end of the source file,
    [Ntree([[0, 100], [0, 100]], 0)], is one such call. *)
Theorem X8_zero_resolution_overflows
    (rs : ndarray) (r : Q) (attrs : pyval) (n_dimensions : option Z)
    (max_depth : Z) :
  rs <> [] ->
  positive_spans rs = true ->
  (r == 0)%Q ->
  Ntree.__init__ (Some rs) (Some (Num r)) attrs n_dimensions max_depth
  = Raise OverflowError.
Proof.
  intros Hne Hpos Hr. unfold Ntree.__init__, Ntree.configure.
  assert (Hdiv := div_by_scalar (Np.diff rs) r).
  unfold Np.diff in Hdiv at 2. rewrite length_map in Hdiv. rewrite Hdiv.
  assert (Hall : Forall (fun v => v = Np.LPInf)
                   (map Np.log2 (map (fun x => Np.div x r) (Np.diff rs)))).
  { unfold Np.diff. rewrite !map_map. apply Forall_forall.
    intros v Hin. apply in_map_iff in Hin. destruct Hin as [row [<- Hin]].
    apply positive_span_over_zero; [exact Hr |].
    unfold positive_spans in Hpos. rewrite forallb_forall in Hpos.
    exact (Hpos row Hin). }
  destruct (map Np.log2 (map (fun x => Np.div x r) (Np.diff rs)))
    as [| v vs] eqn:Hmap.
  - destruct rs; [contradiction Hne; reflexivity | discriminate].
  - inversion Hall as [| v' vs' Hv Hvs]; subst. simpl.
    rewrite (fold_max2_pinf _ Hvs). simpl.
    destruct n_dimensions; reflexivity.
Qed.

(** The theorem at the call of the source's [__main__] block. *)
Lemma X8_zero_resolution_overflows_witness :
  [(0, 100); (0, 100)]%Q <> [] /\
  positive_spans [(0, 100); (0, 100)]%Q = true /\
  Ntree.__init__ (Some [(0, 100); (0, 100)]%Q) (Some (Num 0)) (Num 0) None 8
  = Raise OverflowError.
Proof.
  split; [discriminate |]. split; [reflexivity |].
  apply X8_zero_resolution_overflows;
    [discriminate | reflexivity | reflexivity].
Defined.

(** X9. With empty ranges and a resolution of any kind (a number, or a
    list of any length), the constructor raises ValueError: either the
    division cannot broadcast, or [np.max] has nothing to take the maximum
    of. *)
Theorem X9_empty_ranges_with_resolution
    (res attrs : pyval) (n_dimensions : option Z) (max_depth : Z) :
  Ntree.__init__ (Some []) (Some res) attrs n_dimensions max_depth
  = Raise ValueError.
Proof.
  unfold Ntree.__init__, Ntree.configure.
  destruct res as [r | [| y [| y' l]]]; destruct n_dimensions; reflexivity.
Qed.

(** X10. Without ranges the constructor never returns a tree: whatever the
    resolution, the attributes, n_dimensions and max_depth, it raises
    TypeError (at [len(ranges)] when n_dimensions is given, at
    [[resolution] * self.dims] or [range(self.dims)] with [dims = None]
    otherwise). The branch of the default resolution 1 is never completed. *)
Theorem X10_no_ranges_raise
    (resolution : option pyval) (attrs : pyval) (n_dimensions : option Z)
    (max_depth : Z) :
  Ntree.__init__ None resolution attrs n_dimensions max_depth
  = Raise TypeError.
Proof.
  unfold Ntree.__init__, Ntree.configure.
  destruct n_dimensions as [n |]; [reflexivity |].
  destruct resolution as [[r | l] |]; reflexivity.
Qed.

(** ** The merge and the write of a node *)

(** Induction on a node and, with it, on all its children. *)
Lemma node_induction (P : Node.t -> Prop) :
  (forall d r a lv ml, P (Node.mk d r a lv ml None)) ->
  (forall d r a lv ml children,
     Forall P children -> P (Node.mk d r a lv ml (Some children))) ->
  forall n, P n.
Proof.
  intros Hleaf Hint.
  exact (fix go (n : Node.t) : P n :=
           match n with
           | Node.mk d r a lv ml None => Hleaf d r a lv ml
           | Node.mk d r a lv ml (Some children) =>
               Hint d r a lv ml children
                 ((fix all (l : list Node.t) : Forall P l :=
                     match l with
                     | [] => Forall_nil P
                     | c :: l' => Forall_cons c (go c) (all l')
                     end) children)
           end).
Qed.

(** [_merge] on an internal node, one step unfolded. *)
Lemma merge_internal (d : Z) (r : ndarray) (a : pyval) (lv ml : Z)
    (children : list Node.t) :
  Node._merge (Node.mk d r a lv ml (Some children))
  = let '(children', merged) := Node.all_merged Node._merge children in
    let self' := Node.mk d r a lv ml (Some children') in
    match merged with
    | Raise e => (self', Raise e)
    | Ok false => (self', Ok false)
    | Ok true =>
        match children' with
        | [] => (self', Raise IndexError)
        | first :: _ =>
            if forallb (fun n => py_eqb (Node.attrs first) (Node.attrs n))
                 children'
            then (Node.mk d r (Node.attrs first) lv ml None, Ok true)
            else (self', Ok false)
        end
    end.
Proof. reflexivity. Qed.

Lemma all_merged_cons (c : Node.t) (l : list Node.t) :
  Node.all_merged Node._merge (c :: l)
  = match Node._merge c with
    | (c', Ok true) =>
        let '(l', b) := Node.all_merged Node._merge l in (c' :: l', b)
    | (c', b) => (c' :: l, b)
    end.
Proof. reflexivity. Qed.

Lemma all_merged_again (children : list Node.t) :
  Forall (fun n => forall n' r,
            Node._merge n = (n', r) -> Node._merge n' = (n', r)) children ->
  forall children' m,
  Node.all_merged Node._merge children = (children', m) ->
  Node.all_merged Node._merge children' = (children', m).
Proof.
  induction 1 as [| c l Hc Hl IH]; intros children' m.
  - simpl. intros H; inversion H; subst. reflexivity.
  - rewrite all_merged_cons.
    destruct (Node._merge c) as [c' rc] eqn:Ec.
    specialize (Hc _ _ eq_refl).
    destruct rc as [[|] | e].
    + destruct (Node.all_merged Node._merge l) as [l' b] eqn:El.
      intros H; inversion H; subst.
      rewrite all_merged_cons, Hc, (IH _ _ eq_refl). reflexivity.
    + intros H; inversion H; subst.
      rewrite all_merged_cons, Hc. reflexivity.
    + intros H; inversion H; subst.
      rewrite all_merged_cons, Hc. reflexivity.
Qed.

(** X11. [Node._merge] is idempotent: merging again the node that a merge
    leaves changes nothing and gives the same answer (the same boolean, or
    the same IndexError of an empty array of children). *)
Theorem X11_merge_is_idempotent (n n' : Node.t) (r : result bool) :
  Node._merge n = (n', r) -> Node._merge n' = (n', r).
Proof.
  revert n' r. induction n as [d rg a lv ml | d rg a lv ml children IH]
    using node_induction; intros n' r.
  - simpl. intros H; inversion H; subst. reflexivity.
  - rewrite merge_internal.
    destruct (Node.all_merged Node._merge children) as [children' m] eqn:Ea.
    pose proof (all_merged_again _ IH _ _ Ea) as Hagain.
    destruct m as [[|] | e].
    + destruct children' as [| first rest].
      * intros H; inversion H; subst.
        rewrite merge_internal, Hagain. reflexivity.
      * destruct (forallb
                    (fun n => py_eqb (Node.attrs first) (Node.attrs n))
                    (first :: rest)) eqn:Eq;
          intros H; inversion H; subst; [reflexivity |].
        rewrite merge_internal, Hagain, Eq. reflexivity.
    + intros H; inversion H; subst.
      rewrite merge_internal, Hagain. reflexivity.
    + intros H; inversion H; subst.
      rewrite merge_internal, Hagain. reflexivity.
Qed.

(** The theorem at the tree whose merge stops at the first quadrant. *)
Lemma X11_merge_is_idempotent_witness :
  Node._merge half_merged = (half_merged, Ok false) /\
  Node._merge (fst (Node._merge half_merged)) = (half_merged, Ok false).
Proof.
  split; [reflexivity |].
  apply (X11_merge_is_idempotent half_merged). reflexivity.
Defined.

Lemma list_eqb_sym (l1 l2 : list Q) :
  list_eqb l1 l2 = true -> list_eqb l2 l1 = true.
Proof.
  revert l2; induction l1 as [| x l1' IH]; intros [| y l2']; simpl;
    try discriminate; [reflexivity |].
  intros H. apply andb_prop in H. destruct H as [Hx Hl].
  rewrite (Qeq_bool_sym _ _ Hx), (IH _ Hl). reflexivity.
Qed.

Lemma list_eqb_trans (l1 l2 l3 : list Q) :
  list_eqb l1 l2 = true -> list_eqb l2 l3 = true -> list_eqb l1 l3 = true.
Proof.
  revert l2 l3; induction l1 as [| x l1' IH]; intros [| y l2'] [| z l3'];
    simpl; try discriminate; [reflexivity |].
  intros H1 H2. apply andb_prop in H1, H2.
  destruct H1 as [Hxy Hl1], H2 as [Hyz Hl2].
  rewrite (Qeq_bool_trans _ _ _ Hxy Hyz), (IH _ _ Hl1 Hl2). reflexivity.
Qed.

Lemma py_eqb_sym (a b : pyval) : py_eqb a b = true -> py_eqb b a = true.
Proof.
  destruct a, b; simpl; try discriminate;
    [apply Qeq_bool_sym | apply list_eqb_sym].
Qed.

Lemma py_eqb_trans (a b c : pyval) :
  py_eqb a b = true -> py_eqb b c = true -> py_eqb a c = true.
Proof.
  destruct a, b, c; simpl; try discriminate;
    [apply Qeq_bool_trans | apply list_eqb_trans].
Qed.

(** The children of an internal node, as [minimal] looks at them. *)
Lemma minimal_internal (d : Z) (r : ndarray) (a : pyval) (lv ml : Z)
    (children : list Node.t) :
  minimal (Node.mk d r a lv ml (Some children))
  = negb (uniform_leaves children) && forallb minimal children.
Proof. reflexivity. Qed.

Lemma all_merged_minimal (children : list Node.t) :
  Forall (fun n => minimal n = true ->
                   Node._merge n = (n, Ok (is_leaf n))) children ->
  forallb minimal children = true ->
  Node.all_merged Node._merge children
  = (children, Ok (forallb is_leaf children)).
Proof.
  induction 1 as [| c l Hc Hl IH]; simpl; [reflexivity |].
  intros H. apply andb_prop in H. destruct H as [Hmc Hml].
  rewrite (Hc Hmc). destruct (is_leaf c); simpl.
  - rewrite (IH Hml). reflexivity.
  - reflexivity.
Qed.

(** X12. A minimal subtree is a fixed point of [Node._merge]: when no
    internal node of it has uniform leaves for children, the merge changes
    nothing, raises nothing, and answers whether the node is a leaf. *)
Theorem X12_merge_fixes_a_minimal_tree (n : Node.t) :
  minimal n = true -> Node._merge n = (n, Ok (is_leaf n)).
Proof.
  induction n as [d rg a lv ml | d rg a lv ml children IH]
    using node_induction.
  - reflexivity.
  - rewrite minimal_internal. intros H.
    apply andb_prop in H. destruct H as [Hnu Hmin].
    rewrite merge_internal, (all_merged_minimal _ IH Hmin).
    change (is_leaf (Node.mk d rg a lv ml (Some children))) with false.
    destruct (forallb is_leaf children) eqn:Hleaves; [| reflexivity].
    destruct children as [| first rest].
    + discriminate.
    + destruct (forallb
                  (fun n => py_eqb (Node.attrs first) (Node.attrs n))
                  (first :: rest)) eqn:Eq; [| reflexivity].
      exfalso. apply negb_true_iff in Hnu.
      unfold uniform_leaves in Hnu.
      assert (Hpair : forallb
                (fun x =>
                   forallb (fun y => py_eqb (Node.attrs x) (Node.attrs y))
                     (first :: rest)) (first :: rest) = true).
      { rewrite forallb_forall in Eq. apply forallb_forall. intros x Hx.
        apply forallb_forall. intros y Hy.
        apply py_eqb_trans with (Node.attrs first).
        - apply py_eqb_sym. exact (Eq x Hx).
        - exact (Eq y Hy). }
      rewrite Hleaves, Hpair in Hnu. discriminate.
Qed.

(** The theorem at the first quadrant, whose leaves differ. *)
Lemma X12_merge_fixes_a_minimal_tree_witness :
  minimal mixed_quadrant = true /\
  Node._merge mixed_quadrant = (mixed_quadrant, Ok false).
Proof.
  split; [reflexivity |].
  apply (X12_merge_fixes_a_minimal_tree mixed_quadrant). reflexivity.
Defined.

Lemma uniform_internal (a : pyval) (d : Z) (r : ndarray) (b : pyval)
    (lv ml : Z) (children : list Node.t) :
  uniform a (Node.mk d r b lv ml (Some children))
  = match children with
    | [] => false
    | _ :: _ => forallb (uniform a) children
    end.
Proof. destruct children; reflexivity. Qed.

Lemma all_merged_uniform (a : pyval) (children : list Node.t) :
  Forall (fun n => uniform a n = true ->
                   exists b,
                     Node._merge n
                     = (Node.set_nodes None (Node.set_attrs b n), Ok true) /\
                     py_eqb a b = true) children ->
  forallb (uniform a) children = true ->
  exists children',
    Node.all_merged Node._merge children = (children', Ok true) /\
    List.length children' = List.length children /\
    Forall (fun c => py_eqb a (Node.attrs c) = true) children'.
Proof.
  induction 1 as [| c l Hc Hl IH]; simpl.
  - intros _. exists []. repeat split. constructor.
  - intros H. apply andb_prop in H. destruct H as [Huc Hul].
    destruct (Hc Huc) as [b [Hm Hb]]. rewrite Hm.
    destruct (IH Hul) as [l' [Hl' [Hlen Hall]]]. rewrite Hl'.
    eexists; split; [reflexivity |]. split; [simpl; lia |].
    constructor; [exact Hb | exact Hall].
Qed.

(** X13. A subtree whose leaves all hold attributes equal to [a] (and
    whose internal nodes all have children) merges into one leaf:
    [_merge] returns True, the node keeps its dims, ranges, level and
    max_level, has no children left, and holds attributes equal to [a]. *)
Theorem X13_merge_collapses_a_uniform_tree (a : pyval) (n : Node.t) :
  uniform a n = true ->
  exists b,
    Node._merge n = (Node.set_nodes None (Node.set_attrs b n), Ok true) /\
    py_eqb a b = true.
Proof.
  induction n as [d rg b lv ml | d rg b lv ml children IH]
    using node_induction.
  - simpl. intros H. exists b. split; [reflexivity | exact H].
  - rewrite uniform_internal. intros H.
    assert (Hall : forallb (uniform a) children = true)
      by (destruct children; [discriminate | exact H]).
    destruct (all_merged_uniform a _ IH Hall) as [cs' [Hm [Hlen Heq]]].
    rewrite merge_internal, Hm.
    destruct cs' as [| first rest];
      [destruct children; [discriminate | simpl in Hlen; lia] |].
    inversion Heq as [| c l Hfirst Hrest]; subst.
    assert (Hcmp : forallb
              (fun n => py_eqb (Node.attrs first) (Node.attrs n))
              (first :: rest) = true).
    { apply forallb_forall. intros x Hx.
      rewrite Forall_forall in Heq.
      apply py_eqb_trans with a;
        [apply py_eqb_sym; exact Hfirst | exact (Heq x Hx)]. }
    rewrite Hcmp. exists (Node.attrs first). split; [reflexivity | exact Hfirst].
Qed.

(** The theorem at the second quadrant, four leaves [1]. *)
Lemma X13_merge_collapses_a_uniform_tree_witness :
  uniform (NumList [1%Q]) uniform_quadrant = true /\
  exists b,
    Node._merge uniform_quadrant
    = (Node.set_nodes None (Node.set_attrs b uniform_quadrant), Ok true) /\
    py_eqb (NumList [1%Q]) b = true.
Proof.
  split; [reflexivity |].
  apply (X13_merge_collapses_a_uniform_tree (NumList [1%Q]) uniform_quadrant).
  reflexivity.
Defined.

Lemma leaves_internal (d : Z) (r : ndarray) (a : pyval) (lv ml : Z)
    (children : list Node.t) :
  leaves (Node.mk d r a lv ml (Some children)) = flat_map leaves children.
Proof. reflexivity. Qed.

Lemma all_merged_leaves_incl (children : list Node.t) :
  Forall (fun n => incl (leaves (fst (Node._merge n))) (leaves n))
    children ->
  forall children' m,
  Node.all_merged Node._merge children = (children', m) ->
  incl (flat_map leaves children') (flat_map leaves children) /\
  (m = Ok true -> Forall (fun c => is_leaf c = true) children').
Proof.
  induction 1 as [| c l Hc Hl IH]; intros children' m.
  - simpl. intros H; inversion H; subst. split.
    + apply incl_refl.
    + intros _. constructor.
  - rewrite all_merged_cons.
    destruct (Node._merge c) as [c' rc] eqn:Ec. simpl in Hc.
    assert (Hstop : forall b, (c' :: l, b) = (children', m) ->
              b <> Ok true ->
              incl (flat_map leaves children') (flat_map leaves (c :: l)) /\
              (m = Ok true -> Forall (fun c => is_leaf c = true) children')).
    { intros b H Hb. inversion H; subst. split.
      - simpl. apply incl_app; [apply incl_appl; exact Hc |].
        apply incl_appr, incl_refl.
      - intros Hm. contradiction. }
    destruct rc as [[|] | e];
      [| intros H; apply (Hstop _ H); discriminate
       | intros H; apply (Hstop _ H); discriminate].
    destruct (Node.all_merged Node._merge l) as [l' b] eqn:El.
    destruct (IH _ _ eq_refl) as [Hincl Hleaf].
    intros H; inversion H; subst. split.
    + simpl. apply incl_app; [apply incl_appl; exact Hc |].
      apply incl_appr. exact Hincl.
    + intros Hm. constructor; [| exact (Hleaf Hm)].
      unfold is_leaf.
      rewrite (proj1 (merge_true_iff_leaf _ _ _ Ec) eq_refl). reflexivity.
Qed.

(** X14. [Node._merge] invents no attribute: every leaf of the subtree it
    leaves holds attributes that a leaf of the subtree held before, on
    every node (whether the merge collapses, stops or raises). *)
Theorem X14_merge_invents_no_attribute (n : Node.t) :
  incl (leaves (fst (Node._merge n))) (leaves n).
Proof.
  induction n as [d rg a lv ml | d rg a lv ml children IH]
    using node_induction.
  - simpl. apply incl_refl.
  - rewrite merge_internal.
    destruct (Node.all_merged Node._merge children) as [cs' m] eqn:Ea.
    destruct (all_merged_leaves_incl _ IH _ _ Ea) as [Hincl Hleaf].
    rewrite leaves_internal.
    destruct m as [[|] | e]; simpl; try exact Hincl.
    destruct cs' as [| first rest]; [exact Hincl |].
    destruct (forallb (fun n => py_eqb (Node.attrs first) (Node.attrs n))
                (first :: rest)); [| exact Hincl].
    simpl. intros x [<- | []]. apply Hincl.
    specialize (Hleaf eq_refl). inversion Hleaf as [| c l Hf _]; subst.
    simpl. apply in_or_app. left.
    destruct first as [d1 r1 a1 lv1 ml1 [cs1 |]]; [discriminate |].
    simpl. left. reflexivity.
Qed.

(** X15. A write to an internal node deeper than max_level returns True
    and stores the value in [attrs], but keeps the children: the node is
    still internal, so no read of it returns the value (every read raises
    AttributeError at [self._read_nodes]). *)
Theorem X15_write_keeps_the_children
    (n : Node.t) (children : list Node.t) (c c' : ndarray) (value : pyval) :
  Node.nodes n = Some children ->
  Node.max_level n < Node.level n ->
  Node.__setitem__ c value n = (Node.set_attrs value n, Ok true) /\
  Node.nodes (Node.set_attrs value n) = Some children /\
  Node.__getitem__ c' (Node.set_attrs value n)
  = (Node.set_attrs value n, Raise AttributeError).
Proof.
  intros Hn Hlv. rewrite Node_setitem_run.
  destruct (Z.leb_spec (Node.level n) (Node.max_level n)); [lia |].
  split; [reflexivity |]. split; [exact Hn |].
  unfold Node.__getitem__. run_step. unfold bind. rewrite Hn. reflexivity.
Qed.

(** The theorem at the uniform quadrant taken with max_level 0. *)
Lemma X15_write_keeps_the_children_witness :
  let n := Node.mk 2 [(0, 2); (2, 4)]%Q (NumList [0%Q]) 1 0
             (Node.nodes uniform_quadrant) in
  Node.max_level n < Node.level n /\
  Node.__setitem__ [(0, 2); (2, 4)]%Q (NumList [7%Q]) n
  = (Node.set_attrs (NumList [7%Q]) n, Ok true).
Proof.
  intros n. split; [reflexivity |].
  eapply (X15_write_keeps_the_children n _ [(0, 2); (2, 4)]%Q []);
    reflexivity.
Defined.

(** X16. Write then read on a leaf: when [Node.__setitem__] returns on a
    leaf and a read of the node it leaves returns too, the write returned
    True, the array read holds the value written, and the read leaves the
    node as the write left it. *)
Theorem X16_leaf_write_then_read
    (n n' n'' : Node.t) (c c' : ndarray) (value : pyval) (b : bool)
    (d : DenseArray) :
  Node.nodes n = None ->
  Node.__setitem__ c value n = (n', Ok b) ->
  Node.__getitem__ c' n' = (n'', Ok d) ->
  b = true /\ n'' = n' /\ d = mkDense value [].
Proof.
  intros Hleaf Hset. rewrite Node_setitem_run in Hset.
  destruct (Node.level n <=? Node.max_level n); [discriminate |].
  inversion Hset; subst. clear Hset.
  unfold Node.__getitem__. run_step. unfold bind. rewrite Hleaf.
  destruct c' as [| s rest]; simpl; [| discriminate].
  intros H; inversion H; subst. repeat split.
Qed.

(** The theorem at a leaf of level 1 with max_level 0, read at no row. *)
Lemma X16_leaf_write_then_read_witness :
  let n := Node.__init__ [(0, 1)%Q] (NumList [0%Q]) 1 0 in
  let n' := Node.set_attrs (NumList [1%Q]) n in
  Node.nodes n = None /\
  Node.__setitem__ [(0, 1)%Q] (NumList [1%Q]) n = (n', Ok true) /\
  exists d,
    Node.__getitem__ [] n' = (n', Ok d) /\ d = mkDense (NumList [1%Q]) [].
Proof.
  intros n n'. split; [reflexivity |]. split; [reflexivity |].
  eexists. split; [reflexivity |].
  eapply (X16_leaf_write_then_read n n' n' [(0, 1)%Q] [] (NumList [1%Q]) true);
    reflexivity.
Defined.

Lemma init_root
    (ranges : option ndarray) (resolution : option pyval) (attrs : pyval)
    (n_dimensions : option Z) (max_depth : Z) (self : Ntree.t) :
  Ntree.__init__ ranges resolution attrs n_dimensions max_depth = Ok self ->
  Ntree.root self
  = Node.__init__ (Ntree.ranges self) attrs 0 (Ntree.max_depth self).
Proof.
  destruct ranges as [rs |];
    [| rewrite init_without_ranges; discriminate].
  unfold Ntree.__init__, Ntree.configure. intros H.
  unfold Np.pow2 in H.
  destruct n_dimensions; destruct resolution as [res |];
    try (destruct (Np.div_broadcast (Np.diff rs)
                     (Ntree.as_list res (Z.of_nat (List.length rs))))
           as [steps |]; [| discriminate];
         destruct (Np.max (map Np.log2 steps)) as [m |]; [| discriminate];
         destruct (Np.int_ceil m) as [k |]; [| discriminate]);
    try (destruct (1024 <=? max_depth); [discriminate |]);
    destruct (py_len attrs); try discriminate;
    simpl in H; inversion H; subst; simpl; reflexivity.
Qed.

Lemma after_frozen (o : operation) (self : Ntree.t) :
  Node.nodes (Ntree.root self) = None ->
  Node.level (Ntree.root self) <= Node.max_level (Ntree.root self) ->
  after o self = self.
Proof.
  intros Hleaf Hlv.
  destruct o as [c v | c | c | c | c v |];
    try (apply after_wrapper; reflexivity).
  - simpl. unfold zoom. rewrite Node_setitem_run.
    destruct (Z.leb_spec (Node.level (Ntree.root self))
                (Node.max_level (Ntree.root self))); [| lia].
    simpl. apply set_root_root.
  - simpl. unfold zoom. rewrite (merge_leaf _ Hleaf). simpl.
    apply set_root_root.
Qed.

(** X17. A tree that the constructor returns with a max_depth of zero or
    more is frozen: no sequence of operations (subscript statements,
    wrapper calls, and even the write and the merge called on the root
    directly) changes anything in it, whatever they return or raise. *)
Theorem X17_constructed_tree_is_frozen
    (ranges : option ndarray) (resolution : option pyval) (attrs : pyval)
    (n_dimensions : option Z) (max_depth : Z) (self : Ntree.t)
    (ops : list operation) :
  Ntree.__init__ ranges resolution attrs n_dimensions max_depth = Ok self ->
  0 <= Ntree.max_depth self ->
  after_all ops self = self.
Proof.
  intros Hinit Hdepth.
  pose proof (init_root _ _ _ _ _ _ Hinit) as Hroot.
  assert (Hleaf : Node.nodes (Ntree.root self) = None)
    by (rewrite Hroot; reflexivity).
  assert (Hlv : Node.level (Ntree.root self)
                <= Node.max_level (Ntree.root self))
    by (rewrite Hroot; simpl; exact Hdepth).
  clear Hinit Hroot.
  induction ops as [| o ops' IH]; simpl; [reflexivity |].
  rewrite (after_frozen o self Hleaf Hlv). exact IH.
Qed.

(** The theorem at the tree over [0,4) x [0,4) and one operation of each
    kind. *)
Lemma X17_constructed_tree_is_frozen_witness :
  let R := Ntree.Many [span 0 2; span 0 4] in
  let ops := [Assign R (NumList [1%Q]); CallSetitem R; Del R; CallDelitem R;
              RootSetitem [(0, 2); (0, 4)]%Q (NumList [1%Q]); RootMerge] in
  Ntree.__init__ (Some [(0, 4); (0, 4)]%Q) None (NumList [0%Q]) (Some 2) 2
  = Ok tree_2d /\
  0 <= Ntree.max_depth tree_2d /\
  after_all ops tree_2d = tree_2d.
Proof.
  intros R ops. split; [reflexivity |]. split; [simpl; lia |].
  apply (X17_constructed_tree_is_frozen
           (Some [(0, 4); (0, 4)]%Q) None (NumList [0%Q]) (Some 2) 2);
    [reflexivity | simpl; lia].
Defined.

(** ** More on subscripts and on the constructor *)

Lemma parse_loop_raises (self : Ntree.t) (els : list Ntree.coord) :
  forall (i : nat) (rs : ndarray) (s' : Ntree.t) (e : exn),
  Ntree.parse_loop i els rs self = (s', Raise e) ->
  e = IndexError \/ e = AttributeError.
Proof.
  induction els as [| el els' IH]; intros i rs s' e; simpl.
  - discriminate.
  - destruct el as [c | sl].
    + destruct (scalar_row_run self i c) as [e' [Hrow He']].
      unfold bind at 1. rewrite Hrow. intros H; inversion H; subst.
      exact He'.
    + unfold bind at 1.
      destruct (Ntree.slice_row i sl self) as [s1 [row | e1]] eqn:Hrow.
      * destruct (slice_row_run self i sl) as [rr [Hrow' _]].
        rewrite Hrow in Hrow'. inversion Hrow'; subst.
        unfold bind, lift.
        destruct (Ntree.assign_row rs i row) as [rs1 | e1] eqn:Ha.
        -- apply IH.
        -- intros H; inversion H; subst. left.
           exact (assign_row_raises _ _ _ _ Ha).
      * intros H; inversion H; subst. left.
        exact (slice_row_raises _ _ _ _ _ Hrow).
Qed.

(** X18. When [_parse_coords] returns, the subscript held slices only, the
    array returned has one row per row of the tree's ranges, and the tree
    is as it was. *)
Theorem X18_parsed_coords_have_one_row_per_axis
    (self s' : Ntree.t) (c : Ntree.coords) (rs : ndarray) :
  Ntree._parse_coords c self = (s', Ok rs) ->
  s' = self /\
  List.length rs = List.length (Ntree.ranges self) /\
  has_number c = false.
Proof.
  intros H.
  destruct (parse_coords_run self c) as [r [Hrun _]].
  rewrite Hrun in H. injection H as Hs Hr. subst s' r.
  split; [reflexivity |].
  split.
  - revert Hrun. unfold Ntree._parse_coords. run_step. unfold bind.
    match goal with
    | |- context [if ?b then _ else _] => destruct b
    end; [discriminate |].
    intros H. exact (proj1 (parse_loop_length _ _ _ _ _ _ H)).
  - destruct (has_number c) eqn:Hnum; [| reflexivity].
    revert Hrun. unfold Ntree._parse_coords. run_step. unfold bind.
    match goal with
    | |- context [if ?b then _ else _] => destruct b
    end; [discriminate |].
    destruct (parse_loop_number self _ Hnum 0%nat (Ntree.ranges self))
      as [e [Hloop _]].
    rewrite Hloop. discriminate.
Qed.

(** The theorem at the tree over [0,4) x [0,4) and [t[0:2]]. *)
Lemma X18_parsed_coords_have_one_row_per_axis_witness :
  Ntree._parse_coords (Ntree.One (span 0 2)) tree_2d
  = (tree_2d, Ok [(0, 2); (0, 4)]%Q) /\
  List.length [(0, 2); (0, 4)]%Q = List.length (Ntree.ranges tree_2d).
Proof.
  split; [reflexivity |].
  eapply (X18_parsed_coords_have_one_row_per_axis
            tree_2d tree_2d (Ntree.One (span 0 2))).
  reflexivity.
Defined.

(** X19. [_parse_coords] raises AssertionError exactly when the subscript
    has more coordinates than [dims], or [dims] is [None]: no other path of
    it raises this exception. *)
Theorem X19_assertion_error_is_the_length_check
    (self : Ntree.t) (c : Ntree.coords) :
  snd (Ntree._parse_coords c self) = Raise AssertionError <->
  le_int_or_None
    (Z.of_nat (List.length match c with
                           | Ntree.One el => [el]
                           | Ntree.Many els => els
                           end))
    (Ntree.dims self) = false.
Proof.
  unfold Ntree._parse_coords. run_step. unfold bind.
  destruct (le_int_or_None _ (Ntree.dims self)); simpl.
  - split; [| discriminate]. intros H. exfalso.
    destruct (Ntree.parse_loop 0 _ (Ntree.ranges self) self)
      as [s1 [rs | e]] eqn:Hloop; simpl in H; [discriminate |].
    inversion H; subst.
    destruct (parse_loop_raises _ _ _ _ _ _ Hloop); discriminate.
  - split; reflexivity.
Qed.


(** ** Writes without a merge; regions without a check *)



